(** * DesignSPHysics: case-state synchronisation, run monitor, export driver
      and XML importer

    A shallow embedding of the data-handling parts of [DSPH.py] and
    [dsphfc/xmlimporter.py].  The macro is Python 2 code driven by Qt
    signals: every handler is modelled as a function from the state it
    touches to the new state paired with an [outcome] (normal return or
    the exception that left the handler); the state keeps the mutations
    made before an exception, as the interpreter does.  Widget calls that
    are write-only (labels, visibility, enabling, row widgets) are left
    out.  A widget whose setter emits a signal that a slot of the macro is
    connected to is part of the state, and the setter runs the slot. *)

From Stdlib Require Import ZArith Floats Ascii.
From stdpp Require Import base strings pretty list gmap.

Local Open Scope string_scope.

(** ** Python values shared by all handlers *)

Inductive exn :=
  | ValueError | IndexError | KeyError | TypeError
  | AttributeError | UnboundLocalError | ZeroDivisionError
  | NameError | OverflowError.

Inductive outcome := Returned | Raised (e : exn).

Inductive result (A : Type) := Ok (a : A) | Raise (e : exn).
Arguments Ok {A} a.
Arguments Raise {A} e.

Global Instance result_ret : MRet result := λ A a, Ok a.
Global Instance result_bind : MBind result := λ A B f m,
  match m with Ok a => f a | Raise e => Raise e end.

Global Instance exn_eq_dec : EqDecision exn.
Proof. solve_decision. Defined.

(** The list [l] without the first occurrence of [x]. *)
Fixpoint remove_first (x : string) (l : list string) : list string :=
  match l with
  | [] => []
  | y :: l' => if decide (x = y) then l' else y :: remove_first x l'
  end.

(** [l.remove(x)]: drops the first occurrence; [None] stands for the
    [ValueError] Python raises when [x] is absent. *)
Definition list_remove (x : string) (l : list string) : option (list string) :=
  if decide (x ∈ l) then Some (remove_first x l) else None.

(** ** Python string operations used by the handlers *)

Module PyStr.

(** [sub in s] *)
Fixpoint contains (sub s : string) : bool :=
  String.prefix sub s ||
  match s with
  | EmptyString => false
  | String _ s' => contains sub s'
  end.

(** [s.split(sep)] for a non-empty [sep]: [cur] is the piece being read,
    reversed; [skip] counts the characters of a matched separator that are
    still to be passed over. *)
Fixpoint split_go (sep : string) (skip : nat) (cur s : string) : list string :=
  match s with
  | EmptyString => [String.rev cur]
  | String c s' =>
      match skip with
      | S k => split_go sep k cur s'
      | O =>
          if String.prefix sep s
          then String.rev cur :: split_go sep (String.length sep - 1) EmptyString s'
          else split_go sep 0 (String c cur) s'
      end
  end.

Definition split (sep s : string) : list string := split_go sep 0 EmptyString s.

(** [s.replace(old, new)] for a non-empty [old]. *)
Fixpoint replace_go (old new : string) (skip : nat) (s : string) : string :=
  match s with
  | EmptyString => EmptyString
  | String c s' =>
      match skip with
      | S k => replace_go old new k s'
      | O =>
          if String.prefix old s
          then new +:+ replace_go old new (String.length old - 1) s'
          else String c (replace_go old new 0 s')
      end
  end.

Definition replace (old new s : string) : string := replace_go old new 0 s.

Definition lower_ascii (c : Ascii.ascii) : Ascii.ascii :=
  let n := Ascii.N_of_ascii c in
  if (65 <=? n)%N && (n <=? 90)%N then Ascii.ascii_of_N (n + 32) else c.

(** [s.lower()] on a byte string. *)
Fixpoint lower (s : string) : string :=
  match s with
  | EmptyString => EmptyString
  | String c s' => String (lower_ascii c) (lower s')
  end.

(** [s[:n]] *)
Fixpoint take (n : nat) (s : string) : string :=
  match n, s with
  | S n', String c s' => String c (take n' s')
  | _, _ => EmptyString
  end.

(** [l[-1]] *)
Definition last_item {A} (l : list A) : result A :=
  match last l with Some x => Ok x | None => Raise IndexError end.

(** [l[i]] for a non-negative constant [i] *)
Definition item {A} (i : nat) (l : list A) : result A :=
  match l !! i with Some x => Ok x | None => Raise IndexError end.

Definition is_space (c : Ascii.ascii) : bool :=
  let n := Ascii.N_of_ascii c in
  (n =? 32)%N || ((9 <=? n)%N && (n <=? 13)%N).

Fixpoint lstrip (s : string) : string :=
  match s with
  | String c s' => if is_space c then lstrip s' else s
  | EmptyString => EmptyString
  end.

(** [s.strip()] *)
Definition strip (s : string) : string :=
  String.rev (lstrip (String.rev (lstrip s))).

Definition digit_of (c : Ascii.ascii) : option Z :=
  let n := Ascii.N_of_ascii c in
  if (48 <=? n)%N && (n <=? 57)%N then Some (Z.of_N (n - 48)) else None.

(** Reads a run of decimal digits: the number read so far, how many
    digits were read, and what follows them. *)
Fixpoint take_digits (s : string) (acc : Z) (count : nat) : Z * nat * string :=
  match s with
  | String c s' =>
      match digit_of c with
      | Some d => take_digits s' (10 * acc + d) (S count)
      | None => (acc, count, s)
      end
  | EmptyString => (acc, count, s)
  end.

Definition parse_sign (s : string) : bool * string :=
  match s with
  | String "-"%char s' => (true, s')
  | String "+"%char s' => (false, s')
  | _ => (false, s)
  end.

(** The binary64 value nearest to [(-1)^neg * m * 10^e] for [0 <= m],
    ties to even: one correctly rounded step from the exact integers. *)
Definition float_of_decimal (neg : bool) (m e : Z) : float :=
  match m with
  | Zpos p =>
      if (0 <=? e)%Z
      then SF2Prim (binary_normalize prec emax
                      (if neg then - (m * 10 ^ e) else m * 10 ^ e)%Z 0 false)
      else SF2Prim (SFdiv prec emax (S754_finite neg p 0)
                      (S754_finite false (Z.to_pos (10 ^ (- e))) 0))
  | _ => if neg then PrimFloat.neg_zero else PrimFloat.zero
  end.

(** [float(s)] on a string: surrounding blanks, a sign, then [inf],
    [infinity], [nan] or a decimal literal with optional fraction and
    exponent; anything else is a [ValueError]. *)
Definition py_float (s : string) : result float :=
  let '(neg, s1) := parse_sign (strip s) in
  let low := lower s1 in
  if decide (low = "inf" ∨ low = "infinity")
  then Ok (if neg then neg_infinity else infinity)
  else if decide (low = "nan") then Ok nan
  else
    let '(ip, ni, r1) := take_digits s1 0 0 in
    let '(m, nf, r2) :=
      match r1 with
      | String "."%char r => take_digits r ip 0
      | _ => (ip, 0, r1)
      end in
    if decide (ni + nf = 0) then Raise ValueError
    else
      match r2 with
      | EmptyString => Ok (float_of_decimal neg m (- Z.of_nat nf))
      | String c r3 =>
          if decide (c = "e"%char ∨ c = "E"%char) then
            let '(eneg, r4) := parse_sign r3 in
            let '(ev, ne, r5) := take_digits r4 0 0 in
            if decide (ne = 0 ∨ r5 ≠ EmptyString) then Raise ValueError
            else Ok (float_of_decimal neg m
                       ((if eneg then - ev else ev) - Z.of_nat nf))
          else Raise ValueError
      end.

(** [int(s)] on a string, base 10. *)
Definition py_int (s : string) : result Z :=
  let '(neg, s1) := parse_sign (strip s) in
  let '(v, n, r) := take_digits s1 0 0 in
  if decide (n = 0 ∨ r ≠ EmptyString) then Raise ValueError
  else Ok (if neg then - v else v)%Z.

(** Reading a local variable that may not have been assigned yet. *)
Definition local {A} (v : option A) : result A :=
  match v with Some x => Ok x | None => Raise UnboundLocalError end.

Definition newline : string := String (Ascii.ascii_of_nat 10) EmptyString.

(** [f.readlines()] on a file holding [content]: each line keeps its
    newline; [cur] is the line being read, reversed. *)
Fixpoint readlines_go (cur content : string) : list string :=
  match content with
  | EmptyString =>
      match cur with EmptyString => [] | _ => [String.rev cur] end
  | String c rest =>
      if decide (c = Ascii.ascii_of_nat 10)
      then String.rev (String c cur) :: readlines_go EmptyString rest
      else readlines_go (String c cur) rest
  end.

Definition readlines (content : string) : list string :=
  readlines_go EmptyString content.

(** [x / y] on floats *)
Definition truediv (x y : float) : result float :=
  if (y =? 0)%float then Raise ZeroDivisionError else Ok (x / y)%float.

End PyStr.

(** ** Object registry: [simobjects], [export_order] and the host document *)

Module Registry.
Import PyStr.

(** First cell of a [simobjects] value: a number, or the string the
    [Case_Limits] entry carries. *)
Inductive mkvalue := MkNumber (n : Z) | MkText (s : string).

(** [data['simobjects'][name] = [mk, type, fill]]. *)
Record SimObject := mkSimObject {
  mk : mkvalue;
  kind : string;
  fillmode : string
}.

(** A FreeCAD document object, reduced to the attributes the handlers read:
    [InList] holds the names of the objects that reference (contain) it. *)
Record DocumentObject := mkDocumentObject {
  Name : string;
  InList : list string;
  TypeId : string
}.

Definition Document := list DocumentObject.

Global Instance DocumentObject_eq_dec : EqDecision DocumentObject.
Proof. solve_decision. Defined.

(** The dictionary is an association list in its internal iteration order:
    [keys()] returns that order, and [pop] keeps the order of the entries
    that stay (CPython only reorders on insertion). *)
Record Data := mkData {
  simobjects : list (string * SimObject);
  export_order : list string
}.

Definition keys (d : list (string * SimObject)) : list string := d.*1.

(** [d[key]] *)
Fixpoint dict_get (key : string) (d : list (string * SimObject)) : option SimObject :=
  match d with
  | [] => None
  | (k, v) :: rest => if decide (k = key) then Some v else dict_get key rest
  end.

(** [d[key][i] = ...]: a cell of the value stored under [key] is
    overwritten in place; the keys and their order stay. *)
Definition dict_update (key : string) (f : SimObject → SimObject)
    (d : list (string * SimObject)) : list (string * SimObject) :=
  (λ kv, if decide (kv.1 = key) then (kv.1, f kv.2) else kv) <$> d.

(** The spin box [property1] (a [QSpinBox]): its value and range. *)
Record SpinBox := mkSpinBox {
  value : Z;
  minimum : Z;
  maximum : Z
}.

(** The property table as far as its widgets feed back into [data]:
    [property1] and the current indices of the combo boxes [property2]
    (items [Fluid], [Bound]) and [property3] (items [Full], [Solid],
    [Face], [Wire]). *)
Record Panel := mkPanel {
  property1 : SpinBox;
  property2 : nat;
  property3 : nat
}.

(** What the handlers of the object registry read and write. *)
Record State := mkState {
  data : Data;
  panel : Panel
}.

Definition with_data (st : State) (d : Data) : State := mkState d (panel st).

Definition with_simobjects (st : State) (sim : list (string * SimObject)) : State :=
  mkState (mkData sim (export_order (data st))) (panel st).

Definition with_property1 (st : State) (s : SpinBox) : State :=
  mkState (data st) (mkPanel s (property2 (panel st)) (property3 (panel st))).

Definition with_property2 (st : State) (index : nat) : State :=
  mkState (data st) (mkPanel (property1 (panel st)) index (property3 (panel st))).

Definition with_property3 (st : State) (index : nat) : State :=
  mkState (data st) (mkPanel (property1 (panel st)) (property2 (panel st)) index).

Definition property2_items : list string := ["Fluid"; "Bound"].
Definition property3_items : list string := ["Full"; "Solid"; "Face"; "Wire"].

(** [combo.itemText(index)]: the empty string for an index with no item. *)
Definition itemText (items : list string) (index : nat) : string :=
  default EmptyString (items !! index).

(** [d.pop(key, None)] *)
Definition dict_pop (key : string) (d : list (string * SimObject)) :
    list (string * SimObject) :=
  filter (λ kv, kv.1 ≠ key) d.

(** [FreeCAD.getDocument("DSPH_Case").getObject(key)] *)
Fixpoint getObject (doc : Document) (key : string) : option DocumentObject :=
  match doc with
  | [] => None
  | o :: rest => if decide (Name o = key) then Some o else getObject rest key
  end.

(** Lines 1398-1402: the loop over the snapshot [simobjects.keys()]. *)
Fixpoint detect_deletion (objectNames ks : list string) (d : Data) : Data * outcome :=
  match ks with
  | [] => (d, Returned)
  | key :: rest =>
      if decide (key ∈ objectNames) then detect_deletion objectNames rest d
      else
        let popped := dict_pop key (simobjects d) in
        match list_remove key (export_order d) with
        | None => (mkData popped (export_order d), Raised ValueError)
        | Some eo => detect_deletion objectNames rest (mkData popped eo)
        end
  end.

(** The branch at lines 1405-1419 that leaves the handler: exactly one
    object is selected and it is [Case_Limits]. *)
Definition returns_early (selection : list DocumentObject) : bool :=
  match selection with
  | [o] => bool_decide (Name o = "Case_Limits")
  | _ => false
  end.

(** Lines 1508-1532: [for key in data["export_order"]] while the body
    removes from that very list.  The list iterator holds an index [i]; each
    round reads [export_order[i]] from the current list and stops when [i]
    has reached its current length.  [None] only when [fuel] runs out. *)
Fixpoint scan_export_order (fuel i : nat) (doc : Document)
    (eo objectsWithParent : list string) : option (list string * list string) :=
  match fuel with
  | O => None
  | S fuel' =>
      match eo !! i with
      | None => Some (eo, objectsWithParent)
      | Some key =>
          match getObject doc key with
          | None =>
              (* [key] is [eo[i]], so [remove] finds it *)
              scan_export_order fuel' (S i) doc (remove_first key eo) objectsWithParent
          | Some contextObject =>
              if decide (InList contextObject = [])
              then scan_export_order fuel' (S i) doc eo objectsWithParent
              else scan_export_order fuel' (S i) doc eo
                     (objectsWithParent ++ [Name contextObject])
          end
      end
  end.

(** Lines 1533-1539: the loop over [objectsWithParent]. *)
Fixpoint prune_with_parent (objectsWithParent : list string) (d : Data) : Data * outcome :=
  match objectsWithParent with
  | [] => (d, Returned)
  | each :: rest =>
      let popped := dict_pop each (simobjects d) in
      match list_remove each (export_order d) with
      | None => (mkData popped (export_order d), Raised ValueError)
      | Some eo => prune_with_parent rest (mkData popped eo)
      end
  end.

(** *** The property widgets and their slots

    [property1.valueChanged], [property2.currentIndexChanged] and
    [property3.currentIndexChanged] are connected to [property1_change],
    [property2_change] and [property3_change] (lines 1319-1321).  Qt emits
    each signal from inside the setter, and only when the value or index
    really changes; the slot then runs before the setter returns.  An
    exception that leaves a slot is reported by the binding and does not
    reach the caller of the setter: a slot is a function on the state. *)

(** [property1_change(value)]: the first selected object's number. *)
Definition property1_change (selection : list DocumentObject) (v : Z)
    (st : State) : State :=
  match selection with
  | [] => st
  | o :: _ =>
      with_simobjects st
        (dict_update (Name o)
           (λ e, mkSimObject (MkNumber v) (kind e) (fillmode e))
           (simobjects (data st)))
  end.

(** Qt's [bound]: the value brought into the range of the spin box. *)
Definition bound (s : SpinBox) (v : Z) : Z :=
  Z.max (minimum s) (Z.min (maximum s) v).

(** [property1.setValue(v)] *)
Definition setValue (selection : list DocumentObject) (v : Z) (st : State) : State :=
  let s := property1 (panel st) in
  let v' := bound s v in
  if decide (v' = value s) then st
  else property1_change selection v'
         (with_property1 st (mkSpinBox v' (minimum s) (maximum s))).

(** [property1.setRange(lo, hi)]: a value that falls outside the new range
    is brought into it, which emits [valueChanged]. *)
Definition setRange (selection : list DocumentObject) (lo hi : Z) (st : State) : State :=
  let s := property1 (panel st) in
  let s1 := mkSpinBox (value s) lo (if decide (lo < hi)%Z then hi else lo) in
  let v' := bound s1 (value s) in
  if decide (v' = value s) then with_property1 st s1
  else property1_change selection v'
         (with_property1 st (mkSpinBox v' (minimum s1) (maximum s1))).

(** [property2_change(index)].  The colour and transparency of the view
    object and the entry of [floating_mks] it drops are not part of the
    state here; they come after the writes below. *)
Definition property2_change (selection : list DocumentObject) (index : nat)
    (st : State) : State :=
  match selection with
  | [] => st
  | o :: _ =>
      if decide (Name o ∈ keys (simobjects (data st))) then
        let text := itemText property2_items index in
        let st1 :=
          with_simobjects st
            (dict_update (Name o)
               (λ e, mkSimObject (mk e) text (fillmode e))
               (simobjects (data st))) in
        if contains "fillbox" (lower (Name o)) then st1
        else if decide (lower text = "bound") then setRange selection 0 240 st1
        else if decide (lower text = "fluid") then setRange selection 0 10 st1
        else st1
      else st
  end.

(** [property3_change(index)] *)
Definition property3_change (selection : list DocumentObject) (index : nat)
    (st : State) : State :=
  match selection with
  | [] => st
  | o :: _ =>
      with_simobjects st
        (dict_update (Name o)
           (λ e, mkSimObject (mk e) (kind e) (itemText property3_items index))
           (simobjects (data st)))
  end.

(** [property2.setCurrentIndex(index)] *)
Definition property2_setCurrentIndex (selection : list DocumentObject)
    (index : nat) (st : State) : State :=
  if decide (index = property2 (panel st)) then st
  else property2_change selection index (with_property2 st index).

(** [property3.setCurrentIndex(index)] *)
Definition property3_setCurrentIndex (selection : list DocumentObject)
    (index : nat) (st : State) : State :=
  if decide (index = property3 (panel st)) then st
  else property3_change selection index (with_property3 st index).

(** The numbers the binding converts to the C [int] that [setValue]
    takes. *)
Definition c_int (n : Z) : Prop := (- 2 ^ 31 ≤ n < 2 ^ 31)%Z.

Global Instance c_int_dec n : Decision (c_int n).
Proof. unfold c_int. apply _. Defined.

(** [data['simobjects'][o.Name]], a [KeyError] when the name is not
    registered. *)
Definition entry_of (o : DocumentObject) (st : State) : result SimObject :=
  match dict_get (Name o) (simobjects (data st)) with
  | Some e => Ok e
  | None => Raise KeyError
  end.

(** Lines 1425-1426: the number goes into the spin box.  A first cell that
    is not a number makes [setValue] raise [TypeError], a number that does
    not fit a C [int] [OverflowError]. *)
Definition show_number (o : DocumentObject) (st : State) : State * outcome :=
  match entry_of o st with
  | Raise e => (st, Raised e)
  | Ok e =>
      match mk e with
      | MkText _ => (st, Raised TypeError)
      | MkNumber n =>
          if decide (c_int n) then (setValue [o] n st, Returned)
          else (st, Raised OverflowError)
      end
  end.

(** Lines 1428-1443: the type of object.  [supported_types] is
    [temp_data["supported_types"]], set outside the files at hand. *)
Definition show_kind (supported_types : list string) (o : DocumentObject)
    (st : State) : State * outcome :=
  if decide (TypeId o ∈ supported_types) then
    match entry_of o st with
    | Raise e => (st, Raised e)
    | Ok e =>
        if decide (lower (kind e) = "fluid") then
          (setRange [o] 0 10 (property2_setCurrentIndex [o] 0 st), Returned)
        else
          (* the cell is read again *)
          if decide (lower (kind e) = "bound") then
            (setRange [o] 0 240 (property2_setCurrentIndex [o] 1 st), Returned)
          else (st, Returned)
    end
  else if bool_decide (TypeId o = "App::DocumentObjectGroup")
          && contains "fillbox" (lower (Name o)) then
    (property2_setCurrentIndex [o] 0 st, Returned)
  else (property2_setCurrentIndex [o] 1 st, Returned).

(** Lines 1445-1459: the fill mode. *)
Definition show_fill (supported_types : list string) (o : DocumentObject)
    (st : State) : State * outcome :=
  if decide (TypeId o ∈ supported_types) then
    match entry_of o st with
    | Raise e => (st, Raised e)
    | Ok e =>
        if decide (lower (fillmode e) = "full") then
          (property3_setCurrentIndex [o] 0 st, Returned)
        else if decide (lower (fillmode e) = "solid") then
          (property3_setCurrentIndex [o] 1 st, Returned)
        else if decide (lower (fillmode e) = "face") then
          (property3_setCurrentIndex [o] 2 st, Returned)
        else if decide (lower (fillmode e) = "wire") then
          (property3_setCurrentIndex [o] 3 st, Returned)
        else (st, Returned)
    end
  else (property3_setCurrentIndex [o] 0 st, Returned).

(** Runs [f] when the steps before it have not raised. *)
Definition and_then (r : State * outcome) (f : State → State * outcome) :
    State * outcome :=
  match r with
  | (st, Returned) => f st
  | (st, Raised e) => (st, Raised e)
  end.

(** Lines 1420-1477: the property table is filled in for the one selected
    object [o].  The blocks for the float state and the initials (lines
    1461-1477) read the type once more and enable or disable buttons. *)
Definition show_properties (supported_types : list string) (o : DocumentObject)
    (st : State) : State * outcome :=
  and_then (and_then (show_number o st) (show_kind supported_types o))
    (show_fill supported_types o).

(** Lines 1404-1496, the selection block, when it does not leave the
    handler: only a single selected object that is registered touches the
    state. *)
Definition selection_block (supported_types : list string)
    (selection : list DocumentObject) (st : State) : State * outcome :=
  match selection with
  | [o] =>
      if decide (Name o ∈ keys (simobjects (data st)))
      then show_properties supported_types o st
      else (st, Returned)
  | _ => (st, Returned)
  end.

(** Lines 1498-1539, "Update dsph objects list": the rebuild of an empty
    [export_order] from the keys, the scan and the parent pass. *)
Definition update_object_list (doc : Document) (st : State) : State * outcome :=
  let d := data st in
  let eo :=
    if decide (length (export_order d) = 0)
    then keys (simobjects d) else export_order d in
  match scan_export_order (S (length eo)) 0 doc eo [] with
  | None => (with_data st (mkData (simobjects d) eo), Returned)
  | Some (eo', objectsWithParent) =>
      let '(d', o) := prune_with_parent objectsWithParent (mkData (simobjects d) eo') in
      (with_data st d', o)
  end.

(** [on_tree_item_selection_change] in an open [DSPH_Case] document with
    the objects [doc], the reconcile step: the deletion pass, the selection
    block and the update of the object list. *)
Definition on_tree_item_selection_change (supported_types : list string)
    (doc : Document) (selection : list DocumentObject) (st : State) :
    State * outcome :=
  let objectNames := Name <$> doc in
  match detect_deletion objectNames (keys (simobjects (data st))) (data st) with
  | (d1, Raised e) => (with_data st d1, Raised e)
  | (d1, Returned) =>
      if returns_early selection then (with_data st d1, Returned)
      else
        and_then (selection_block supported_types selection (with_data st d1))
          (update_object_list doc)
  end.

(** The slot as Qt calls it: [FreeCAD.getDocument("DSPH_Case")] at line
    1395 raises when no such document is open, before anything is
    touched. *)
Definition on_tree_item_selection_change_slot (supported_types : list string)
    (doc : option Document) (selection : list DocumentObject) (st : State) :
    State * outcome :=
  match doc with
  | None => (st, Raised NameError)
  | Some objects => on_tree_item_selection_change supported_types objects selection st
  end.

(** [new_order] as built by the "order up" loop (lines 1557-1560). *)
Definition insert_before (prev_elem curr_elem : string) (eo : list string) : list string :=
  flat_map (λ element,
    if decide (element = prev_elem) then [curr_elem; element] else [element]) eo.

(** [new_order] as built by the "order down" loop (lines 1570-1573). *)
Definition insert_after (next_elem curr_elem : string) (eo : list string) : list string :=
  flat_map (λ element,
    if decide (element = next_elem) then [element; curr_elem] else [element]) eo.

(** [on_cell_click(row, column)]: column 1 is "Move Up", column 2 is
    "Move Down"; table row [row] stands for [export_order[row + 1]]. *)
Definition on_cell_click (supported_types : list string) (doc : Document)
    (selection : list DocumentObject) (row column : nat) (st : State) :
    State * outcome :=
  let d := data st in
  match keys (simobjects d) !! (row + 1) with
  | None => (st, Raised IndexError)
  | Some _ =>
      if decide (column = 1) then
        match export_order d !! (row + 1) with
        | None => (st, Raised IndexError)
        | Some curr_elem =>
            match export_order d !! row with
            | None => (st, Raised IndexError)
            | Some prev_elem =>
                match list_remove curr_elem (export_order d) with
                | None => (st, Raised ValueError)
                | Some eo =>
                    on_tree_item_selection_change supported_types doc selection
                      (with_data st
                         (mkData (simobjects d) (insert_before prev_elem curr_elem eo)))
                end
            end
        end
      else if decide (column = 2) then
        match export_order d !! (row + 1) with
        | None => (st, Raised IndexError)
        | Some curr_elem =>
            match export_order d !! (row + 2) with
            | None => (st, Raised IndexError)
            | Some next_elem =>
                match list_remove curr_elem (export_order d) with
                | None => (st, Raised ValueError)
                | Some eo =>
                    on_tree_item_selection_change supported_types doc selection
                      (with_data st
                         (mkData (simobjects d) (insert_after next_elem curr_elem eo)))
                end
            end
        end
      else on_tree_item_selection_change supported_types doc selection st
  end.

(** *** Sample entries and documents *)

(** The entry [on_new_case] stores for the limits object (line 198). *)
Definition case_limits_entry : string * SimObject :=
  ("Case_Limits", mkSimObject (MkText "mkspecial") "typespecial" "fillspecial").

(** An entry as [add_object_to_sim] stores it (line 1365). *)
Definition bound_entry (name : string) (mktoput : Z) : string * SimObject :=
  (name, mkSimObject (MkNumber mktoput) "bound" "full").

Definition box (name : string) (parents : list string) : DocumentObject :=
  mkDocumentObject name parents "Part::Box".

(** A document in which [Box] has been moved into the group [Group]. *)
Definition doc_grouped : Document :=
  [box "Case_Limits" [];
   mkDocumentObject "Group" [] "App::DocumentObjectGroup";
   box "Box" ["Group"]].

(** A document with two top-level boxes. *)
Definition doc_two_boxes : Document :=
  [box "Case_Limits" []; box "A" []; box "B" []].

(** The property widgets as lines 1312-1318 create them. *)
Definition initial_panel : Panel := mkPanel (mkSpinBox 0 0 240) 0 0.

(** A value for [temp_data["supported_types"]]. *)
Definition sample_types : list string := ["Part::Box"; "Part::Sphere"; "Part::Cylinder"].

(** *** Vocabulary for the registry properties *)

(** The host document has no object called [k]. *)
Definition deleted (doc : Document) (k : string) : Prop :=
  getObject doc k = None.

(** The object called [k] is in the document and some object contains it. *)
Definition has_parent (doc : Document) (k : string) : Prop :=
  ∃ o, getObject doc k = Some o ∧ InList o ≠ [].

(** The object called [k] is in the document. *)
Definition live (doc : Document) (k : string) : Prop :=
  is_Some (getObject doc k).

(** The object called [k] is in the document, at top level. *)
Definition top_level (doc : Document) (k : string) : Prop :=
  ∃ o, getObject doc k = Some o ∧ InList o = [].

Global Instance has_parent_dec doc k : Decision (has_parent doc k).
Proof.
  unfold has_parent. destruct (getObject doc k) as [o|].
  - destruct (decide (InList o = [])) as [E|E].
    + right. intros (o' & [= <-] & ?). done.
    + left. eauto.
  - right. intros (o' & [=] & ?).
Defined.

Global Instance top_level_dec doc k : Decision (top_level doc k).
Proof.
  unfold top_level. destruct (getObject doc k) as [o|].
  - destruct (decide (InList o = [])) as [E|E].
    + left. eauto.
    + right. intros (o' & [= <-] & ?). done.
  - right. intros (o' & [=] & ?).
Defined.

Global Instance live_dec doc k : Decision (live doc k).
Proof. unfold live. apply _. Defined.

(** The two structures list the same identifiers, each once. *)
Definition synced (d : Data) : Prop :=
  NoDup (keys (simobjects d)) ∧ export_order d ≡ₚ keys (simobjects d).

(** The first cell of a value is a number that fits a C [int]. *)
Definition is_number (v : mkvalue) : Prop :=
  match v with MkNumber n => c_int n | MkText _ => False end.

Global Instance is_number_dec v : Decision (is_number v).
Proof. destruct v; simpl; apply _. Defined.

(** Every entry other than the one of [Case_Limits] carries a number, as
    the entries written at lines 897, 1359 and 1365 do. *)
Definition numbered (d : Data) : Prop :=
  ∀ kv, kv ∈ simobjects d → kv.1 ≠ "Case_Limits" → is_number (mk kv.2).

(** The spin box has one of the two ranges the macro gives it (lines 907,
    914, 1317, 1433 and 1437). *)
Definition ranged (s : SpinBox) : Prop :=
  minimum s = 0%Z ∧ (maximum s = 240 ∨ maximum s = 10)%Z.

Global Instance ranged_dec s : Decision (ranged s).
Proof. unfold ranged. apply _. Defined.

(** No registered number is above 240, the largest number the spin box
    takes. *)
Definition numbers_fit (d : Data) : Prop :=
  ∀ kv n, kv ∈ simobjects d → mk kv.2 = MkNumber n → (n ≤ 240)%Z.

(** One run on [st] takes every registered identifier that is deleted or
    has a parent out of both structures, and leaves no identifier in only
    one of them. *)
Definition prunes_together (supported_types : list string) (doc : Document)
    (selection : list DocumentObject) (st : State) : Prop :=
  let d := data st in
  let d' := data (on_tree_item_selection_change supported_types doc selection st).1 in
  (∀ k, k ∈ keys (simobjects d) → deleted doc k ∨ has_parent doc k →
        (k ∉ keys (simobjects d')) ∧ (k ∉ export_order d')) ∧
  (∀ k, k ∈ keys (simobjects d') ↔ k ∈ export_order d').

(** Every listed identifier is a top-level object of the document. *)
Definition settled (doc : Document) (d : Data) : Prop :=
  ∀ k, k ∈ export_order d → top_level doc k.

(** A second run, on an unchanged document, changes neither the SimObject
    map nor ExportOrder. *)
Definition second_run_is_noop (supported_types : list string) (doc : Document)
    (selection1 selection2 : list DocumentObject) (st : State) : Prop :=
  let st1 := (on_tree_item_selection_change supported_types doc selection1 st).1 in
  data (on_tree_item_selection_change supported_types doc selection2 st1).1 = data st1.

End Registry.


(** ** The selected value under the property widgets

    While the property table is filled in for one object, every write of
    a slot goes to the value stored under that object's name.  The
    functions below are the setters and slots of [Registry] on that value
    and the panel alone; the properties section shows that they agree. *)

Module Focus.
Import PyStr Registry.

Definition Focus : Type := SimObject * Panel.

Definition property1_change (v : Z) (f : Focus) : Focus :=
  (mkSimObject (MkNumber v) (kind f.1) (fillmode f.1), f.2).

Definition with_property1 (f : Focus) (s : SpinBox) : Focus :=
  (f.1, mkPanel s (property2 f.2) (property3 f.2)).

Definition setValue (v : Z) (f : Focus) : Focus :=
  let s := property1 f.2 in
  let v' := bound s v in
  if decide (v' = value s) then f
  else property1_change v' (with_property1 f (mkSpinBox v' (minimum s) (maximum s))).

Definition setRange (lo hi : Z) (f : Focus) : Focus :=
  let s := property1 f.2 in
  let s1 := mkSpinBox (value s) lo (if decide (lo < hi)%Z then hi else lo) in
  let v' := bound s1 (value s) in
  if decide (v' = value s) then with_property1 f s1
  else property1_change v' (with_property1 f (mkSpinBox v' (minimum s1) (maximum s1))).

Definition property2_change (fillbox : bool) (index : nat) (f : Focus) : Focus :=
  let text := itemText property2_items index in
  let f1 : Focus := (mkSimObject (mk f.1) text (fillmode f.1), f.2) in
  if fillbox then f1
  else if decide (lower text = "bound") then setRange 0 240 f1
  else if decide (lower text = "fluid") then setRange 0 10 f1
  else f1.

Definition property3_change (index : nat) (f : Focus) : Focus :=
  (mkSimObject (mk f.1) (kind f.1) (itemText property3_items index), f.2).

Definition property2_setCurrentIndex (fillbox : bool) (index : nat) (f : Focus) : Focus :=
  if decide (index = property2 f.2) then f
  else property2_change fillbox index
         (f.1, mkPanel (property1 f.2) index (property3 f.2)).

Definition property3_setCurrentIndex (index : nat) (f : Focus) : Focus :=
  if decide (index = property3 f.2) then f
  else property3_change index (f.1, mkPanel (property1 f.2) (property2 f.2) index).

(** [supported] tells whether the type of the object is a supported one,
    [group] whether it is a group, [fillbox] whether its name contains
    [fillbox]. *)
Definition show_kind (supported group fillbox : bool) (f : Focus) : Focus :=
  if supported then
    if decide (lower (kind f.1) = "fluid") then
      setRange 0 10 (property2_setCurrentIndex fillbox 0 f)
    else if decide (lower (kind f.1) = "bound") then
      setRange 0 240 (property2_setCurrentIndex fillbox 1 f)
    else f
  else if group && fillbox then property2_setCurrentIndex fillbox 0 f
  else property2_setCurrentIndex fillbox 1 f.

Definition show_fill (supported : bool) (f : Focus) : Focus :=
  if supported then
    if decide (lower (fillmode f.1) = "full") then property3_setCurrentIndex 0 f
    else if decide (lower (fillmode f.1) = "solid") then property3_setCurrentIndex 1 f
    else if decide (lower (fillmode f.1) = "face") then property3_setCurrentIndex 2 f
    else if decide (lower (fillmode f.1) = "wire") then property3_setCurrentIndex 3 f
    else f
  else property3_setCurrentIndex 0 f.

Definition show (supported group fillbox : bool) (n : Z) (f : Focus) : Focus :=
  show_fill supported (show_kind supported group fillbox (setValue n f)).

(** The value with another fill mode, the panel with another index of
    [property3]. *)
Definition with_fill (fm : string) (index : nat) (f : Focus) : Focus :=
  (mkSimObject (mk f.1) (kind f.1) fm, mkPanel (property1 f.2) (property2 f.2) index).

(** What filling the table in leaves behind: the value and the spin box
    agree as far as the range allows, and the index of [property2] and the
    range are the ones the type of object asks for. *)
Definition shown (supported group fillbox : bool) (f : Focus) : Prop :=
  let s := property1 f.2 in
  ranged s ∧
  (∃ m, mk f.1 = MkNumber m ∧ (bound s m = value s ∨ bound s m = m)) ∧
  (minimum s ≤ value s ≤ maximum s)%Z ∧
  if supported then
    (lower (kind f.1) = "fluid" → property2 f.2 = 0 ∧ maximum s = 10%Z) ∧
    (lower (kind f.1) ≠ "fluid" → lower (kind f.1) = "bound" →
       property2 f.2 = 1 ∧ maximum s = 240%Z)
  else property2 f.2 = (if group && fillbox then 0 else 1).

(** The index the fill step asks [property3] for, if any. *)
Definition fill_target (supported : bool) (fm : string) : option nat :=
  if supported then
    if decide (lower fm = "full") then Some 0
    else if decide (lower fm = "solid") then Some 1
    else if decide (lower fm = "face") then Some 2
    else if decide (lower fm = "wire") then Some 3
    else None
  else Some 0.

(** What the fill step makes of a fill mode and an index of [property3]. *)
Definition fill_result (supported : bool) (fm : string) (i : nat) : string * nat :=
  match fill_target supported fm with
  | None => (fm, i)
  | Some j => if decide (j = i) then (fm, i) else (itemText property3_items j, j)
  end.

(** The state in which the value under [name] is [f.1] and the panel
    [f.2]. *)
Definition embed (name : string) (sim : list (string * SimObject))
    (eo : list string) (f : Focus) : State :=
  mkState (mkData (dict_update name (λ _, f.1) sim) eo) f.2.

End Focus.
(** ** Run monitor: the simulation dialog, its process and the log watcher *)

Module RunMonitor.
Import PyStr.

(** [temp_data["current_process"]]: [None], a [QProcess] (is it running,
    and the standard output it has buffered), or the empty string that
    [on_ex_simulate] stores when the process did not start. *)
Inductive process_ref :=
  | NoProcess
  | QProcess (running : bool) (stdout : string)
  | EmptyStr.

(** [run_dialog.setWindowTitle(...)]: the text after
    ["DualSPHysics Simulation: "]. *)
Inductive window_title :=
  | TitleZero
  | TitlePercent (current_value : float)
  | TitleComplete
  | TitleError.

(** The entries of [data] the run monitor uses. *)
Record Case := mkCase {
  project_path : string;
  project_name : string;
  dsphysics_path : string;
  additional_parameters : string;
  timemax : float;
  total_particles_out : Z;
  simulation_done : bool
}.

(** [run_progbar_bar] is the value of the [QProgressBar], an [int]; the bar
    is given the range 0..100 once, at line 455. *)
Record RunDialog := mkRunDialog {
  title : window_title;
  visible : bool;
  run_progbar_bar : Z;
  run_button_cancel : string;
  run_group_label_eta : string;
  run_group_label_partsout : Z
}.

(** [run_watcher] is the list of directories being watched;
    [releases] counts the [removePath] calls that took a directory off it.
    [error_details] is the detailed text of the error box, once shown. *)
Record World := mkWorld {
  data : Case;
  current_process : process_ref;
  run_watcher : list string;
  releases : nat;
  dialog : RunDialog;
  widget_state : string;
  error_details : option string
}.

Definition out_dir (c : Case) : string :=
  project_path c +:+ "/" +:+ project_name c +:+ "_Out/".

(** [QFileSystemWatcher.addPath]: a watched path is not added twice. *)
Definition addPath (p : string) (w : list string) : list string :=
  if decide (p ∈ w) then w else w ++ [p].

(** [QFileSystemWatcher.removePath]: the paths left, and whether [p] was
    watched; a path that is not watched is not an error. *)
Definition removePath (p : string) (w : list string) : list string * bool :=
  (remove_first p w, bool_decide (p ∈ w)).

(** [final_params_ex] of [on_ex_simulate] (lines 525-530). *)
Definition final_params_ex (processor : string) (c : Case) : list string :=
  let static_params_exe :=
    [out_dir c +:+ project_name c; out_dir c; "-svres"; "-" +:+ lower processor] in
  let additional_params_ex :=
    if decide (String.length (additional_parameters c) < 2) then []
    else split " " (additional_parameters c) in
  static_params_exe ++ additional_params_ex.

(** Lines 542-545: the loop that captures [TimeMax]. *)
Fixpoint scan_timemax (run_file_data : list string) (tm : float) : float * outcome :=
  match run_file_data with
  | [] => (tm, Returned)
  | l :: rest =>
      if (tm =? -1)%float && contains "TimeMax=" l then
        match (value ← item 1 (split "=" l); py_float value) with
        | Ok v => scan_timemax rest v
        | Raise e => (tm, Raised e)
        end
      else scan_timemax rest tm
  end.

(** The text handed to [float] at line 550. *)
Definition part_time_text (last_line : string) : result string :=
  let last_line_parttime := split "." last_line in
  whole ← last_item (split " " (default EmptyString (head last_line_parttime)));
  frac ← item 1 last_line_parttime;
  mret (whole +:+ "." +:+ take 2 frac).

(** Line 550: [current_value]. *)
Definition current_value (last_line : string) (tm : float) : result float :=
  txt ← part_time_text last_line;
  t ← py_float txt;
  truediv (t * 100)%float tm.

(** The [int] the binding hands to Qt for a Python [float]: a value
    outside the C [int] range raises [OverflowError] and the call is not
    made; otherwise the fraction is dropped.  (A NaN passes the range test;
    the cast then gives the least [int].) *)
Definition c_int_of_float (x : float) : result Z :=
  if ((x <? -2147483648) || (2147483647 <? x))%float then Raise OverflowError
  else
    match Prim2SF x with
    | S754_zero _ => Ok 0%Z
    | S754_finite s m e =>
        let n := if decide (0 ≤ e)%Z then (Z.pos m * 2 ^ e)%Z
                 else (Z.pos m / 2 ^ (- e))%Z in
        Ok (if s then (- n)%Z else n)
    | S754_infinity _ | S754_nan => Ok (- 2 ^ 31)%Z
    end.

(** [QProgressBar.setValue(int)] with the range 0..100 of line 455: a value
    outside the range is ignored. *)
Definition setValue (value : Z) (bar : Z) : Z :=
  if decide (0 ≤ value ≤ 100)%Z then value else bar.

(** Line 555: is the last double-blank-separated field an elapsed time? *)
Definition is_time_field (last_line_time : string) : bool :=
  negb (contains "===" last_line_time) && negb (contains "CellDiv" last_line_time)
  && negb (contains "memory" last_line_time) && contains "-" last_line_time.

Definition with_data (w : World) (c : Case) : World :=
  mkWorld c (current_process w) (run_watcher w) (releases w) (dialog w)
    (widget_state w) (error_details w).

Definition with_dialog (w : World) (g : RunDialog) : World :=
  mkWorld (data w) (current_process w) (run_watcher w) (releases w) g
    (widget_state w) (error_details w).

Definition set_timemax (c : Case) (tm : float) : Case :=
  mkCase (project_path c) (project_name c) (dsphysics_path c)
    (additional_parameters c) tm (total_particles_out c) (simulation_done c).

Definition set_total_particles_out (c : Case) (n : Z) : Case :=
  mkCase (project_path c) (project_name c) (dsphysics_path c)
    (additional_parameters c) (timemax c) n (simulation_done c).

Definition set_simulation_done (c : Case) (b : bool) : Case :=
  mkCase (project_path c) (project_name c) (dsphysics_path c)
    (additional_parameters c) (timemax c) (total_particles_out c) b.

(** Lines 547-565, after the [TimeMax] loop: the branch on the last line. *)
Definition read_last_line (last_line : string) (w : World) : World * outcome :=
  if contains "Part_" last_line then
    let shown :=
      if contains "Part_" (default EmptyString (head (split "." last_line))) then
        v ← current_value last_line (timemax (data w));
        (* run_progbar_bar.setValue(current_value), then the title *)
        n ← c_int_of_float v;
        mret (mkRunDialog (TitlePercent v) (visible (dialog w))
                (setValue n (run_progbar_bar (dialog w)))
                (run_button_cancel (dialog w)) (run_group_label_eta (dialog w))
                (run_group_label_partsout (dialog w)))
      else Ok (dialog w) in
    match shown with
    | Raise e => (w, Raised e)
    | Ok g =>
        match last_item (split "  " last_line) with
        | Raise e => (with_dialog w g, Raised e)
        | Ok last_line_time =>
            if is_time_field last_line_time then
              (with_dialog w
                 (mkRunDialog (title g) (visible g) (run_progbar_bar g)
                    (run_button_cancel g) last_line_time (run_group_label_partsout g)),
               Returned)
            else (with_dialog w g, Returned)
        end
    end
  else if contains "Particles out:" last_line then
    match (tail ← item 1 (split "(total: " last_line);
           digits ← item 0 (split ")" tail);
           py_int digits) with
    | Raise e => (w, Raised e)
    | Ok totalpartsout =>
        let g := dialog w in
        (mkWorld (set_total_particles_out (data w) totalpartsout)
           (current_process w) (run_watcher w) (releases w)
           (mkRunDialog (title g) (visible g) (run_progbar_bar g)
              (run_button_cancel g) (run_group_label_eta g) totalpartsout)
           (widget_state w) (error_details w),
         Returned)
    end
  else (w, Returned).

(** [on_fs_change(path)].  [run_file] is what opening and reading
    [Run.out] gives: [None] when [open] or [readlines] raises, in which
    case the local [run_file_data] is never bound. *)
Definition on_fs_change (run_file : option (list string)) (w : World) : World * outcome :=
  (* try: ... run_file_data = run_file.readlines() ... except Exception: utils.debug(e) *)
  let run_file_data := run_file in
  match local run_file_data with
  | Raise e => (w, Raised e)
  | Ok run_file_data =>
      match scan_timemax run_file_data (timemax (data w)) with
      | (tm, Raised e) => (with_data w (set_timemax (data w) tm), Raised e)
      | (tm, Returned) =>
          let w1 := with_data w (set_timemax (data w) tm) in
          match last_item run_file_data with
          | Raise e => (w1, Raised e)
          | Ok last_line => read_last_line last_line w1
          end
      end
  end.

(** [on_dsph_sim_finished(exitCode)], the slot of [process.finished]. *)
Definition on_dsph_sim_finished (exitCode : Z) (w : World) : World * outcome :=
  match current_process w with
  | NoProcess | EmptyStr => (w, Raised AttributeError)
  | QProcess _ output =>
      let '(watched, removed) := removePath (out_dir (data w)) (run_watcher w) in
      let rel := if removed then S (releases w) else releases w in
      let g := dialog w in
      let done := mkRunDialog TitleComplete (visible g)
                    (setValue 100 (run_progbar_bar g)) "Close"
                    (run_group_label_eta g) (run_group_label_partsout g) in
      if decide (exitCode = 0%Z) then
        (mkWorld (set_simulation_done (data w) true) (current_process w)
           watched rel done "sim finished" (error_details w), Returned)
      else if contains "exception" (lower output) then
        let failed := mkRunDialog TitleError false
                        (setValue 0 (setValue 100 (run_progbar_bar g))) "Close"
                        (run_group_label_eta g) (run_group_label_partsout g) in
        match item 1 (split "================================" output) with
        | Raise e =>
            (mkWorld (data w) (current_process w) watched rel failed
               "sim error" (error_details w), Raised e)
        | Ok details =>
            (mkWorld (data w) (current_process w) watched rel failed
               "sim error" (Some details), Returned)
        end
      else
        (mkWorld (data w) (current_process w) watched rel done
           (widget_state w) (error_details w), Returned)
  end.

(** [QProcess.kill()]: a running process is stopped; on one that is not
    running the call does nothing. *)
Definition kill (p : process_ref) : result process_ref :=
  match p with
  | QProcess _ out => Ok (QProcess false out)
  | EmptyStr => Raise AttributeError
  | NoProcess => Raise AttributeError
  end.

(** [on_cancel()], the slot of the dialog's cancel button. *)
Definition on_cancel (w : World) : World * outcome :=
  let killed :=
    match current_process w with
    | NoProcess => Ok NoProcess
    | p => kill p
    end in
  match killed with
  | Raise e => (w, Raised e)
  | Ok p =>
      let g := dialog w in
      (mkWorld (data w) p (run_watcher w) (releases w)
         (mkRunDialog (title g) false (run_progbar_bar g) (run_button_cancel g)
            (run_group_label_eta g) (run_group_label_partsout g))
         "sim cancel" (error_details w), Returned)
  end.

(** [on_ex_simulate()] as far as the run dialog, the process and the
    watcher go (lines 474-483, 522-531, 569-581); [started] tells whether
    the solver process came up. *)
Definition on_ex_simulate (started : bool) (w : World) : World :=
  let c := set_simulation_done (data w) false in
  let g := mkRunDialog TitleZero (visible (dialog w)) 0 "Cancel Simulation"
             "Calculating..." 0 in
  let watched := addPath (out_dir c) (run_watcher w) in
  if started then
    mkWorld c (QProcess true EmptyString) watched (releases w)
      (mkRunDialog (title g) true (run_progbar_bar g) (run_button_cancel g)
         (run_group_label_eta g) (run_group_label_partsout g))
      "sim start" (error_details w)
  else
    let '(watched', removed) := removePath (out_dir c) watched in
    mkWorld c EmptyStr watched' (if removed then S (releases w) else releases w)
      g "sim start" (error_details w).

(** What the Qt event loop delivers to the run dialog while a simulation
    is under way. *)
Inductive event :=
  | CancelClicked
  | ProcessFinished (exitCode : Z)
  | DirectoryChanged (run_file : option (list string)).

Global Instance event_eq_dec : EqDecision event.
Proof. solve_decision. Defined.

Definition handle (ev : event) (w : World) : World * outcome :=
  match ev with
  | CancelClicked => on_cancel w
  | ProcessFinished exitCode => on_dsph_sim_finished exitCode w
  | DirectoryChanged run_file => on_fs_change run_file w
  end.

(** Delivers the events in order; an exception ends the slot it was raised
    in, not the event loop.  The outcomes are listed in event order. *)
Fixpoint run (evs : list event) (w : World) : World * list outcome :=
  match evs with
  | [] => (w, [])
  | ev :: rest =>
      let '(w1, o) := handle ev w in
      let '(w2, os) := run rest w1 in
      (w2, o :: os)
  end.

(** *** Sample state and vocabulary for the run-monitor properties *)

Definition sample_case : Case :=
  mkCase "/home/user/cases" "dambreak" "/opt/DualSPHysics4" "" (-1) 0 false.

(** The state before the first simulation of a session. *)
Definition idle_world : World :=
  mkWorld sample_case NoProcess [] 0
    (mkRunDialog TitleZero false 0 "Cancel Simulation" "Calculating..." 0)
    "gencase done" None.

(** The state [on_ex_simulate] leaves when the solver has started. *)
Definition sample_world : World := on_ex_simulate true idle_world.

(** The log of the progress example: a [TimeMax] line, then a last line
    that starts with [Part_0005.00]. *)
Definition claimed_log : string :=
  "TimeMax=10.0" +:+ newline +:+ "Part_0005.00  ...  0.01234 - 00:01:02".

(** The same log with the time as a field of its own after the part label,
    which is where the solver prints it. *)
Definition spaced_log : string :=
  "TimeMax=10.0" +:+ newline +:+ "Part_0005 5.00  ...  0.01234 - 00:01:02".

(** A log whose [TimeMax] line has not been written yet. *)
Definition part_only_log : string :=
  "Part_0005 5.00  ...  0.01234 - 00:01:02".

(** A simulation is under way: the process runs and its output directory
    is on the watch list (once, as [addPath] keeps it). *)
Definition is_running (w : World) : Prop :=
  (∃ output, current_process w = QProcess true output) ∧
  out_dir (data w) ∈ run_watcher w ∧ NoDup (run_watcher w).

(** What stays true of a run while events are delivered: the process
    object and the output directory do not change, the watch list has no
    repetition, and the directory is either still watched with [r] releases
    counted, or off the list with exactly one more. *)
Definition watch_state (dir output : string) (r : nat) (released : bool)
    (w : World) : Prop :=
  (∃ running, current_process w = QProcess running output) ∧
  out_dir (data w) = dir ∧
  NoDup (run_watcher w) ∧
  if released then (dir ∉ run_watcher w) ∧ releases w = S r
  else (dir ∈ run_watcher w) ∧ releases w = r.

Definition is_finished (ev : event) : bool :=
  match ev with ProcessFinished _ => true | _ => false end.

Definition with_process (w : World) (p : process_ref) : World :=
  mkWorld (data w) p (run_watcher w) (releases w) (dialog w)
    (widget_state w) (error_details w).

End RunMonitor.

(** ** Export driver *)

Module ExportDriver.
Import PyStr.

(** The entries of [data] that [on_export] reads. *)
Record Case := mkCase {
  project_path : string;
  project_name : string;
  partvtk4_path : string;
  export_options : string;
  additional_parameters : string
}.

Definition out_dir (c : Case) : string :=
  project_path c +:+ "/" +:+ project_name c +:+ "_Out/".

Definition static_params_exp (c : Case) : list string :=
  ["-dirin " +:+ out_dir c; "-savevtk " +:+ out_dir c +:+ "PartAll"].

(** Lines 707-710. *)
Definition additional_params_exp (c : Case) : list string :=
  if decide (String.length (export_options c) < 2) then []
  else split " " (additional_parameters c).

(** Lines 712-713: the program and the argument list handed to
    [export_process.start]. *)
Definition final_params_exp (c : Case) : list string :=
  static_params_exp c ++ additional_params_exp c.

Definition on_export (c : Case) : string * list string :=
  (partvtk4_path c, final_params_exp c).

End ExportDriver.

(** ** XML importer: [filter_data] *)

Module XmlImporter.
Import PyStr.

(** What [json.loads(json.dumps(xmltodict.parse(...)))] builds: an element
    is a dictionary (attributes under ["@name"] keys), a repeated element a
    list, a text-only element a string, an empty element [None].  The
    strings are [unicode] objects; a [string] here holds their text in
    UTF-8, in which an ASCII character such as [#] occurs only as itself. *)
#[local] Set Warnings "-register-all".
Inductive json :=
  | JNull
  | JStr (s : string)
  | JList (l : list json)
  | JDict (d : list (string * json)).

(** The values stored in the returned dictionary [fil]. *)
Inductive pyval :=
  | VInt (n : Z)
  | VFloat (x : float)
  | VBool (b : bool)
  | VInts (l : list Z)
  | VFloats (l : list float)
  | VRaw (j : json).

Fixpoint assoc (key : string) (d : list (string * json)) : option json :=
  match d with
  | [] => None
  | (k, v) :: rest => if decide (k = key) then Some v else assoc key rest
  end.

(** [j[key]] with a string key. *)
Definition getitem (j : json) (key : string) : result json :=
  match j with
  | JDict d => match assoc key d with Some v => Ok v | None => Raise KeyError end
  | _ => Raise TypeError
  end.

Definition is_str (s : string) (j : json) : bool :=
  match j with JStr t => bool_decide (t = s) | _ => false end.

(** ['#' in j] *)
Definition has_hash (j : json) : result bool :=
  match j with
  | JStr s => Ok (contains "#" s)
  | JList l => Ok (existsb (is_str "#") l)
  | JDict d => Ok (bool_decide ("#" ∈ d.*1))
  | JNull => Raise TypeError
  end.

Fixpoint chars (s : string) : list json :=
  match s with
  | EmptyString => []
  | String c s' => JStr (String c EmptyString) :: chars s'
  end.

(** The items a [for] loop over [j] visits.  (A string is visited by
    characters; the loops below index each item with a string key, which
    fails on the first character whatever it is.) *)
Definition iterate (j : json) : result (list json) :=
  match j with
  | JList l => Ok l
  | JDict d => Ok (JStr <$> d.*1)
  | JStr s => Ok (chars s)
  | JNull => Raise TypeError
  end.

(** [raw['case']['casedef']['constantsdef'][element][attribute]] *)
Definition constant (raw : json) (element attribute : string) : result json :=
  a ← getitem raw "case";
  b ← getitem a "casedef";
  c ← getitem b "constantsdef";
  e ← getitem c element;
  getitem e attribute.

(** [raw['case']['casedef']['geometry'][...]] *)
Definition geometry (raw : json) : result json :=
  a ← getitem raw "case";
  b ← getitem a "casedef";
  getitem b "geometry".

(** The items of [raw['case']['execution']['parameters']['parameter']] in
    the order the loop at line 102 visits them. *)
Definition parameter_items (raw : json) : result (list json) :=
  (a ← getitem raw "case"; e ← getitem a "execution";
   p ← getitem e "parameters"; getitem p "parameter") ≫= iterate.

Abbreviation dict := (gmap string pyval).

(** The methods of [unicode] the importer relies on.  [unicode_lower] is
    [unicode.lower], which also maps letters outside ASCII;
    [encode_decimal] is the step by which [float] and [int] turn a
    [unicode] argument into the ASCII text they parse (digits and blanks of
    any script become ASCII ones), a [ValueError] where that is not
    possible.  On ASCII text the first is [lower] and the second changes
    nothing. *)
Section Unicode.
Variable unicode_lower : string → string.
Variable encode_decimal : string → result string.

(** [float(j)] *)
Definition as_float (j : json) : result float :=
  match j with JStr s => encode_decimal s ≫= py_float | _ => Raise TypeError end.

(** [int(j)] *)
Definition as_int (j : json) : result Z :=
  match j with JStr s => encode_decimal s ≫= py_int | _ => Raise TypeError end.

(** [j.lower()] *)
Definition as_lower (j : json) : result string :=
  match j with JStr s => Ok (unicode_lower s) | _ => Raise AttributeError end.

(** [j.lower() == "true"] *)
Definition is_true (j : json) : result bool :=
  s ← as_lower j; mret (bool_decide (s = "true")).

(** [j.replace('#', '').lower()] *)
Definition plain_key (j : json) : result string :=
  match j with
  | JStr s => Ok (unicode_lower (replace "#" "" s))
  | _ => Raise AttributeError
  end.

(** Lines 74-95: the case constants. *)
Definition case_constants (raw : json) (fil : dict) : result dict :=
  v ← constant raw "lattice" "@bound" ≫= as_int;
  let fil := <["lattice_bound" := VInt v]> fil in
  v ← constant raw "lattice" "@fluid" ≫= as_int;
  let fil := <["lattice_fluid" := VInt v]> fil in
  x ← constant raw "gravity" "@x" ≫= as_float;
  y ← constant raw "gravity" "@y" ≫= as_float;
  z ← constant raw "gravity" "@z" ≫= as_float;
  let fil := <["gravity" := VFloats [x; y; z]]> fil in
  v ← constant raw "rhop0" "@value" ≫= as_float;
  let fil := <["rhop0" := VFloat v]> fil in
  v ← constant raw "hswl" "@value" ≫= as_float;
  let fil := <["hswl" := VFloat v]> fil in
  b ← constant raw "hswl" "@auto" ≫= is_true;
  let fil := <["hswl_auto" := VBool b]> fil in
  v ← constant raw "gamma" "@value" ≫= as_float;
  let fil := <["gamma" := VFloat v]> fil in
  v ← constant raw "speedsystem" "@value" ≫= as_float;
  let fil := <["speedsystem" := VFloat v]> fil in
  b ← constant raw "speedsystem" "@auto" ≫= is_true;
  let fil := <["speedsystem_auto" := VBool b]> fil in
  v ← constant raw "coefsound" "@value" ≫= as_float;
  let fil := <["coefsound" := VFloat v]> fil in
  v ← constant raw "speedsound" "@value" ≫= as_float;
  let fil := <["speedsound" := VFloat v]> fil in
  b ← constant raw "speedsound" "@auto" ≫= is_true;
  let fil := <["speedsound_auto" := VBool b]> fil in
  v ← constant raw "coefh" "@value" ≫= as_float;
  let fil := <["coefh" := VFloat v]> fil in
  v ← constant raw "cflnumber" "@value" ≫= as_float;
  let fil := <["cflnumber" := VFloat v]> fil in
  v ← constant raw "h" "@value" ≫= as_float;
  let fil := <["h" := VFloat v]> fil in
  b ← constant raw "h" "@auto" ≫= is_true;
  let fil := <["h_auto" := VBool b]> fil in
  v ← constant raw "b" "@value" ≫= as_float;
  let fil := <["b" := VFloat v]> fil in
  b ← constant raw "b" "@auto" ≫= is_true;
  let fil := <["b_auto" := VBool b]> fil in
  v ← constant raw "massbound" "@value" ≫= as_float;
  let fil := <["massbound" := VFloat v]> fil in
  b ← constant raw "massbound" "@auto" ≫= is_true;
  let fil := <["massbound_auto" := VBool b]> fil in
  v ← constant raw "massfluid" "@value" ≫= as_float;
  let fil := <["massfluid" := VFloat v]> fil in
  b ← constant raw "massbound" "@auto" ≫= is_true;
  let fil := <["massfluid_auto" := VBool b]> fil in
  mret fil.

(** Lines 102-107: the loop over the execution parameters.  In each
    assignment the value on the right is computed before the key. *)
Fixpoint execution_parameters (ps : list json) (fil : dict) : result dict :=
  match ps with
  | [] => Ok fil
  | parameter :: rest =>
      k ← getitem parameter "@key";
      hash ← has_hash k;
      if hash : bool then
        v ← getitem parameter "@value" ≫= as_float;
        name ← getitem parameter "@key" ≫= plain_key;
        let fil := <[name := VFloat v]> fil in
        name ← getitem parameter "@key" ≫= plain_key;
        let fil := <[name +:+ "_auto" := VBool true]> fil in
        execution_parameters rest fil
      else
        v ← getitem parameter "@value" ≫= as_float;
        name ← getitem parameter "@key" ≫= as_lower;
        execution_parameters rest (<[name := VFloat v]> fil)
  end.

(** The [for] loops at lines 122-123 and 134-135: the list grown so far
    survives the exception that ends the loop. *)
Fixpoint append_mks (items : list json) (used : list Z) : list Z * outcome :=
  match items with
  | [] => (used, Returned)
  | x :: rest =>
      match getitem x "@mk" ≫= as_int with
      | Ok n => append_mks rest (used ++ [n])
      | Raise e => (used, Raised e)
      end
  end.

(** One [try] block of lines 115-138 for [tag] = ["setmkbound"] or
    ["setmkfluid"]: a [KeyError] is swallowed, anything else leaves
    [filter_data]. *)
Definition mk_used (raw : json) (tag : string) : result (list Z) :=
  let found :=
    g ← geometry raw;
    c ← getitem g "commands";
    m ← getitem c "mainlist";
    getitem m tag in
  match found with
  | Raise KeyError => Ok []
  | Raise e => Raise e
  | Ok (JDict d) =>
      match getitem (JDict d) "@mk" ≫= as_int with
      | Ok n => Ok [n]
      | Raise KeyError => Ok []
      | Raise e => Raise e
      end
  | Ok mks =>
      match iterate mks with
      | Raise e => Raise e
      | Ok items =>
          match append_mks items [] with
          | (used, Returned) | (used, Raised KeyError) => Ok used
          | (_, Raised e) => Raise e
          end
      end
  end.

(** [filter_data(raw)] *)
Definition filter_data (raw : json) : result dict :=
  fil ← case_constants raw ∅;
  dp ← (g ← geometry raw; d ← getitem g "definition"; getitem d "@dp") ≫= as_float;
  let fil := <["dp" := VFloat dp]> fil in
  ps ← parameter_items raw;
  fil ← execution_parameters ps fil;
  name ← (a ← getitem raw "case"; getitem a "@app");
  let fil := <["project_name" := VRaw name]> fil in
  bounds ← mk_used raw "setmkbound";
  fluids ← mk_used raw "setmkfluid";
  mret (<["mkfluidused" := VInts fluids]> (<["mkboundused" := VInts bounds]> fil)).

(** The keys of [fil] that one round of the parameter loop assigns. *)
Definition written_keys (parameter : json) : list string :=
  match getitem parameter "@key" with
  | Ok (JStr s) =>
      if contains "#" s
      then [unicode_lower (replace "#" "" s);
            unicode_lower (replace "#" "" s) +:+ "_auto"]
      else [unicode_lower s]
  | _ => []
  end.

End Unicode.

(** *** Sample input and vocabulary for the importer properties *)

(** The importer on ASCII text. *)
Definition filter_ascii : json → result dict := filter_data lower Ok.

(** An element that has attributes only. *)
Definition element (attributes : list (string * string)) : json :=
  JDict (prod_map id JStr <$> attributes).

Definition parameter (key value : string) : json :=
  element [("@key", key); ("@value", value)].

(** A case file as the importer receives it, with the [auto] attributes of
    [massbound] and [massfluid] and the execution parameters left open. *)
Definition sample_raw (massbound_auto massfluid_auto : string)
    (parameters : list json) : json :=
  JDict [("case", JDict [
    ("@app", JStr "GenCase4 v4.0.034");
    ("casedef", JDict [
      ("constantsdef", JDict [
        ("lattice", element [("@bound", "1"); ("@fluid", "1")]);
        ("gravity", element [("@x", "0"); ("@y", "0"); ("@z", "-9.81")]);
        ("rhop0", element [("@value", "1000")]);
        ("hswl", element [("@value", "0"); ("@auto", "true")]);
        ("gamma", element [("@value", "7")]);
        ("speedsystem", element [("@value", "0"); ("@auto", "true")]);
        ("coefsound", element [("@value", "20")]);
        ("speedsound", element [("@value", "0"); ("@auto", "true")]);
        ("coefh", element [("@value", "1.0")]);
        ("cflnumber", element [("@value", "0.2")]);
        ("h", element [("@value", "0"); ("@auto", "true")]);
        ("b", element [("@value", "0"); ("@auto", "true")]);
        ("massbound", element [("@value", "0"); ("@auto", massbound_auto)]);
        ("massfluid", element [("@value", "0"); ("@auto", massfluid_auto)])]);
      ("geometry", JDict [
        ("definition", element [("@dp", "0.01")]);
        ("commands", JDict [
          ("mainlist", JDict [
            ("setmkfluid", element [("@mk", "0")]);
            ("setmkbound", JList [element [("@mk", "0")]; element [("@mk", "1")]])])])])]);
    ("execution", JDict [
      ("parameters", JDict [("parameter", JList parameters)])])])].

(** A case file with two execution parameters, and what the importer
    makes of it. *)
Definition two_parameters_raw : json :=
  sample_raw "True" "false" [parameter "TimeMax" "1.5"; parameter "#DtIni" "0.0001"].

Definition two_parameters_fil : dict :=
  match filter_ascii two_parameters_raw with Ok fil => fil | Raise _ => ∅ end.

(** [raw['case']['execution']['parameters']['parameter']] *)
Definition parameter_node (raw : json) : result json :=
  a ← getitem raw "case"; e ← getitem a "execution";
  p ← getitem e "parameters"; getitem p "parameter".

(** [raw['case']['casedef']['geometry']['commands']['mainlist'][tag]] *)
Definition mainlist_node (raw : json) (tag : string) : result json :=
  g ← geometry raw;
  c ← getitem g "commands";
  m ← getitem c "mainlist";
  getitem m tag.

(** [j] with the value found along [path] replaced by [v]. *)
Fixpoint set_path (path : list string) (v : json) (j : json) : json :=
  match path with
  | [] => v
  | k :: rest =>
      match j with
      | JDict d =>
          JDict ((λ kv : string * json,
                    if decide (kv.1 = k) then (k, set_path rest v kv.2) else kv) <$> d)
      | _ => j
      end
  end.

End XmlImporter.

(** ** Adding and removing objects *)

Module RegistryOps.
Import PyStr Registry.

(** [data] as far as [add_object_to_sim] and [remove_object_from_sim] use
    it: the registry and the two lists of mk numbers handed out, with the
    property widgets the reconcile step drives. *)
Record Case := mkCase {
  registry : Data;
  widgets : Panel;
  mkfluidused : list Z;
  mkboundused : list Z
}.

(** The reconcile step, or a click on the order table, on the registry and
    the widgets of a case. *)
Definition on_registry (handler : State → State * outcome) (c : Case) : Case * outcome :=
  let '(st, o) := handler (mkState (registry c) (widgets c)) in
  (mkCase (data st) (panel st) (mkfluidused c) (mkboundused c), o).

Section Handlers.

(** [utils.get_first_mk_not_used(kind, data)] is not part of the files at
    hand: it is a parameter.  [None] stands for any result that Python
    counts as false and that the callers replace by 0. *)
Variable get_first_mk_not_used : string → Case → option Z.

(** Where a new key lands in the iteration order of the dictionary is up to
    the hash table: [dict_order] rearranges the entries after an insertion. *)
Variable dict_order : list (string * SimObject) → list (string * SimObject).

(** [temp_data["supported_types"]] *)
Variable supported_types : list string.

(** [d[key] = value] for a key that is not in [d]. *)
Definition dict_insert_new (key : string) (value : SimObject)
    (d : list (string * SimObject)) : list (string * SimObject) :=
  dict_order (d ++ [(key, value)]).

(** One round of the loop at lines 1349-1367. *)
Definition add_item (item : DocumentObject) (c : Case) : Case :=
  if decide (Name item = "Case_Limits") then c
  else if decide (0 < length (InList item)) then c
  else if decide (Name item ∈ keys (simobjects (registry c))) then c
  else if contains "fillbox" (lower (Name item)) then
    let mktoput := default 0%Z (get_first_mk_not_used "fluid" c) in
    mkCase
      (mkData (dict_insert_new (Name item) (mkSimObject (MkNumber mktoput) "fluid" "full")
                 (simobjects (registry c)))
              (export_order (registry c) ++ [Name item]))
      (widgets c) (mkfluidused c ++ [mktoput]) (mkboundused c)
  else
    let mktoput := default 0%Z (get_first_mk_not_used "bound" c) in
    mkCase
      (mkData (dict_insert_new (Name item) (mkSimObject (MkNumber mktoput) "bound" "full")
                 (simobjects (registry c)))
              (export_order (registry c) ++ [Name item]))
      (widgets c) (mkfluidused c) (mkboundused c ++ [mktoput]).

(** [add_object_to_sim(name=None)].  With a name, [selection] is the result
    of [[].append(...)], which is [None], and [selection[0]] raises. *)
Definition add_object_to_sim (name : option string) (doc : Document)
    (selection : list DocumentObject) (c : Case) : Case * outcome :=
  match name with
  | Some _ => (c, Raised TypeError)
  | None =>
      let c1 := foldl (λ acc item, add_item item acc) c selection in
      on_registry (on_tree_item_selection_change supported_types doc selection) c1
  end.

(** One round of the loop at lines 1374-1379. *)
Definition remove_item (item : DocumentObject) (c : Case) : Case :=
  if decide (Name item = "Case_Limits") then c
  else
    let eo :=
      if decide (Name item ∈ export_order (registry c))
      then remove_first (Name item) (export_order (registry c))
      else export_order (registry c) in
    mkCase (mkData (dict_pop (Name item) (simobjects (registry c))) eo)
      (widgets c) (mkfluidused c) (mkboundused c).

(** [remove_object_from_sim()] *)
Definition remove_object_from_sim (doc : Document)
    (selection : list DocumentObject) (c : Case) : Case * outcome :=
  let c1 := foldl (λ acc item, remove_item item acc) c selection in
  on_registry (on_tree_item_selection_change supported_types doc selection) c1.

End Handlers.

(** *** Vocabulary *)

(** The selection is taken from the document: every selected object is the
    document's object of that name, and no object is selected twice. *)
Definition selected_from (doc : Document) (selection : list DocumentObject) : Prop :=
  NoDup (Name <$> selection) ∧
  ∀ o, o ∈ selection → getObject doc (Name o) = Some o.

(** The objects of the selection that [add_object_to_sim] registers. *)
Definition addable (ks : list string) (o : DocumentObject) : Prop :=
  Name o ≠ "Case_Limits" ∧ InList o = [] ∧ Name o ∉ ks.

Global Instance addable_dec ks o : Decision (addable ks o).
Proof. unfold addable. apply _. Defined.

(** The calls that change the registry, each with the document and the
    selection at that moment: [add_object_to_sim()] without a name,
    [remove_object_from_sim()], [on_cell_click(row, column)] and
    [on_tree_item_selection_change()]. *)
Inductive action :=
  | Add (doc : Document) (selection : list DocumentObject)
  | Remove (doc : Document) (selection : list DocumentObject)
  | CellClick (doc : Document) (selection : list DocumentObject) (row column : nat)
  | SelectionChange (doc : Document) (selection : list DocumentObject).

Section Actions.
Variable get_first_mk_not_used : string → Case → option Z.
Variable dict_order : list (string * SimObject) → list (string * SimObject).
Variable supported_types : list string.

Definition perform (a : action) (c : Case) : Case * outcome :=
  match a with
  | Add doc selection =>
      add_object_to_sim get_first_mk_not_used dict_order supported_types
        None doc selection c
  | Remove doc selection => remove_object_from_sim supported_types doc selection c
  | CellClick doc selection row column =>
      on_registry (on_cell_click supported_types doc selection row column) c
  | SelectionChange doc selection =>
      on_registry (on_tree_item_selection_change supported_types doc selection) c
  end.

(** The state after a sequence of actions; an action that raises leaves
    what it had done so far. *)
Definition perform_all (actions : list action) (c : Case) : Case :=
  foldl (λ acc a, (perform a acc).1) c actions.

End Actions.

(** A mk allocator for the examples: the smallest number from 0 that is not
    in the list of the kind. *)
Definition first_free (kind : string) (c : Case) : option Z :=
  let used := if decide (kind = "fluid") then mkfluidused c else mkboundused c in
  (λ p, Z.of_nat p.2) <$> list_find (λ n : nat, Z.of_nat n ∉ used) (seq 0 241).

End RegistryOps.

(** ** More Python string operations *)

Module PyStr2.
Import PyStr.

(** [sep.join(l)] *)
Fixpoint join (sep : string) (l : list string) : string :=
  match l with
  | [] => EmptyString
  | x :: rest =>
      match rest with
      | [] => x
      | _ => x +:+ sep +:+ join sep rest
      end
  end.

(** [s[n:]] *)
Fixpoint drop (n : nat) (s : string) : string :=
  match n, s with
  | S n', String _ s' => drop n' s'
  | _, _ => s
  end.

(** [s.index(sub)]: the place of the first occurrence; [None] stands for
    the [ValueError] raised when there is none. *)
Fixpoint index (sub s : string) : option nat :=
  if String.prefix sub s then Some 0
  else match s with
       | EmptyString => None
       | String _ s' => S <$> index sub s'
       end.

Definition index_or_raise (sub s : string) : result nat :=
  match index sub s with Some i => Ok i | None => Raise ValueError end.

(** [s[i:j]] for indices inside the string *)
Definition slice (i j : nat) (s : string) : string := take (j - i) (drop i s).

(** [l[-2]] *)
Definition item_before_last {A} (l : list A) : result A :=
  match rev l with
  | _ :: x :: _ => Ok x
  | _ => Raise IndexError
  end.

End PyStr2.

(** ** Saving and loading a case *)

Module CaseFiles.
Import PyStr PyStr2.

(** Lines 219-220 of [on_save_case]: [project_path] and [project_name]. *)
Definition saved_names (save_name : string) : result (string * string) :=
  name ← last_item (split "/" save_name);
  mret (save_name, name).

(** Lines 313-314 and 337-338 of [on_load_case]: [load_project_name], which
    is computed first and not used, then [project_path] and
    [project_name]. *)
Definition loaded_names (loadName : string) : result (string * string) :=
  load_project_name ← item_before_last (split "/" loadName);
  let load_path_project_folder := join "/" (removelast (split "/" loadName)) in
  name ← last_item (split "/" load_path_project_folder);
  mret (load_path_project_folder, name).

(** Lines 269-270: the number of particles GenCase reports. *)
Definition total_particles_of (output : string) : result Z :=
  i ← index_or_raise "Total particles: " output;
  j ← index_or_raise " (bound=" output;
  let total_particles_text := slice i j output in
  k ← index_or_raise ": " total_particles_text;
  py_int (drop (k + 2) total_particles_text).

Inductive message_box := Information | Critical.

(** What lines 258-300 of [on_save_case] leave behind: two entries of
    [data], the last widget configuration, the message box shown with its
    detailed text, and whether [casedata.dsphdata] has been written. *)
Record SaveState := mkSaveState {
  gencase_done : bool;
  total_particles : Z;
  widget_state : string;
  shown : option (message_box * string);
  pickled : bool
}.

(** How the handler ends: it returns, or an exception leaves it. *)
Inductive ending := Finished | Stopped (e : exn) | StoppedIOError.

Definition separator : string := "================================".

(** Lines 298-300, for a project folder that can be written to. *)
Definition pickle_dump (st : SaveState) : SaveState * ending :=
  (mkSaveState (gencase_done st) (total_particles st) (widget_state st)
     (shown st) true, Finished).

(** Lines 288-296: [out_file] is the content of the [.out] file, [None]
    when it cannot be opened. *)
Definition gencase_failed (out_file : option string) (st : SaveState) :
    SaveState * ending :=
  match out_file with
  | None => (st, StoppedIOError)
  | Some content =>
      match item 1 (split separator content) with
      | Raise e => (st, Stopped e)
      | Ok details =>
          pickle_dump (mkSaveState (gencase_done st) (total_particles st)
                         (widget_state st) (Some (Critical, details)) (pickled st))
      end
  end.

(** Lines 258-300 of [on_save_case].  [gencase] is [None] when no GenCase
    path is set; otherwise it holds the exit code and the standard output
    of the finished process and the content of the [.out] file. *)
Definition gencase_step (gencase : option (Z * string * option string))
    (st : SaveState) : SaveState * ending :=
  let st0 := mkSaveState false (total_particles st) (widget_state st)
               (shown st) false in
  match gencase with
  | None => pickle_dump st0
  | Some (exitCode, output, out_file) =>
      if decide (exitCode = 0%Z) then
        match total_particles_of output with
        | Raise _ => gencase_failed out_file st0
        | Ok n =>
            let st1 := mkSaveState true n "gencase done" (shown st0) false in
            match item 1 (split separator output) with
            | Raise e => (st1, Stopped e)
            | Ok details =>
                pickle_dump (mkSaveState true n "gencase done"
                               (Some (Information, details)) false)
            end
        end
      else gencase_failed out_file st0
  end.

End CaseFiles.

(** ** Export progress *)

Module ExportProgress.
Import PyStr.

(** Line 683: [int(filename.split("Part_")[1].split(".bi4")[0])]. *)
Definition part_number (filename : string) : result Z :=
  tail ← item 1 (split "Part_" filename);
  digits ← item 0 (split ".bi4" tail);
  py_int digits.

(** Lines 682-683 of [on_export]: the loop over the files that
    [glob.glob(... + "Part_*.bi4")] found, started from the value
    [temp_data["total_export_parts"]] already holds. *)
Fixpoint prescan (partfiles : list string) (total_export_parts : Z) : Z * outcome :=
  match partfiles with
  | [] => (total_export_parts, Returned)
  | filename :: rest =>
      match part_number filename with
      | Ok n => prescan rest (Z.max n total_export_parts)
      | Raise e => (total_export_parts, Raised e)
      end
  end.

(** The export dialog: the progress bar and the two numbers of the window
    title [Export to VTK: current/total], once set. *)
Record ExportDialog := mkExportDialog {
  total_export_parts : Z;
  export_progbar_bar : Z;
  title : option (Z * Z)
}.

(** Line 719: [int(current_output.split("PartAll_")[1].split(".vtk")[0])]. *)
Definition current_part (current_output : string) : result Z :=
  tail ← item 1 (split "PartAll_" current_output);
  digits ← item 0 (split ".vtk" tail);
  py_int digits.

(** [on_stdout_ready()], for the chunk of standard output just read. *)
Definition on_stdout_ready (current_output : string) (g : ExportDialog) :
    ExportDialog * outcome :=
  match current_part current_output with
  | Raise e => (g, Raised e)
  | Ok n =>
      (mkExportDialog (total_export_parts g) n (Some (n, total_export_parts g)),
       Returned)
  end.

End ExportProgress.

(** ** XML importer: [create_fc_objects] *)

Module XmlObjects.
Import PyStr.

(** An element of the parsed tree: tag, attributes, text and children. *)
#[local] Set Warnings "-register-all".
Inductive element :=
  Element (tag : string) (attrib : list (string * string))
          (text : option string) (children : list element).

Definition tag_of (e : element) : string := let 'Element t _ _ _ := e in t.
Definition attrib_of (e : element) : list (string * string) :=
  let 'Element _ a _ _ := e in a.
Definition text_of (e : element) : option string := let 'Element _ _ t _ := e in t.
Definition children_of (e : element) : list element := let 'Element _ _ _ c := e in c.

(** [e.attrib[key]] *)
Fixpoint attribute (key : string) (a : list (string * string)) : result string :=
  match a with
  | [] => Raise KeyError
  | (k, v) :: rest => if decide (k = key) then Ok v else attribute key rest
  end.

(** [float(e.attrib[key]) * 1000] *)
Definition millimetres (key : string) (e : element) : result float :=
  v ← attribute key (attrib_of e);
  x ← py_float v;
  mret (x * 1000)%float.

Definition vector : Type := float * float * float.

(** [(float(e.attrib["x"]) * 1000, float(e.attrib["y"]) * 1000,
     float(e.attrib["z"]) * 1000)] *)
Definition xyz (e : element) : result vector :=
  x ← millimetres "x" e;
  y ← millimetres "y" e;
  z ← millimetres "z" e;
  mret (x, y, z).

(** The locals [boxfill], [point] and [size] of the loop over the children
    of a [drawbox]. *)
Record BoxShape := mkBoxShape {
  boxfill : option string;
  point : vector;
  size : vector
}.

(** One round of the loop at lines 174-185: the three locals are set to
    their defaults, then the child sets the one it names. *)
Definition subcommand_round (subcommand : element) : result BoxShape :=
  let boxfill := Some "full" in
  let point := (0, 0, 0)%float in
  let size := (1, 1, 1)%float in
  if decide (tag_of subcommand = "boxfill") then
    Ok (mkBoxShape (text_of subcommand) point size)
  else if decide (tag_of subcommand = "point") then
    p ← xyz subcommand; mret (mkBoxShape boxfill p size)
  else if decide (tag_of subcommand = "size") then
    s ← xyz subcommand; mret (mkBoxShape boxfill point s)
  else Ok (mkBoxShape boxfill point size).

(** The whole loop: the locals as the last round left them, and as they
    were before the loop when there was no round. *)
Fixpoint subcommands (cs : list element) (shape : option BoxShape) :
    result (option BoxShape) :=
  match cs with
  | [] => Ok shape
  | subcommand :: rest =>
      s ← subcommand_round subcommand;
      subcommands rest (Some s)
  end.

(** A [Part::Box] as lines 187-192 set it up. *)
Record Box := mkBox {
  box_name : string;
  base : vector;
  axis : vector;
  angle : float;
  dimensions : vector
}.

(** The locals of [create_fc_objects], the boxes created in the document
    and the dictionary to be returned.  [shape] holds [boxfill], [point]
    and [size], which are unbound until a [drawbox] with a child has been
    read. *)
Record Builder := mkBuilder {
  movement : vector;
  rotation : float * float * float * float;
  mk : string * string;
  drawmode : string;
  elementnum : nat;
  shape : option BoxShape;
  created : list Box;
  toAddDSPH : gmap string (string * string * string)
}.

Definition initial : Builder :=
  mkBuilder (0, 0, 0)%float (0, 0, 0, 0)%float ("void", "0") "full" 0 None [] ∅.

(** The body of one branch of the loop at lines 156-198, before
    [elementnum] is advanced. *)
Definition command_round (command : element) (b : Builder) : result Builder :=
  let t := tag_of command in
  if decide (t = "matrixreset") then
    Ok (mkBuilder (0, 0, 0)%float (0, 0, 0, 0)%float (mk b) (drawmode b)
          (elementnum b) (shape b) (created b) (toAddDSPH b))
  else if decide (t = "setmkfluid") then
    m ← attribute "mk" (attrib_of command);
    mret (mkBuilder (movement b) (rotation b) ("fluid", m) (drawmode b)
            (elementnum b) (shape b) (created b) (toAddDSPH b))
  else if decide (t = "setmkbound") then
    m ← attribute "mk" (attrib_of command);
    mret (mkBuilder (movement b) (rotation b) ("bound", m) (drawmode b)
            (elementnum b) (shape b) (created b) (toAddDSPH b))
  else if decide (t = "setdrawmode") then
    m ← attribute "mode" (attrib_of command);
    mret (mkBuilder (movement b) (rotation b) (mk b) m
            (elementnum b) (shape b) (created b) (toAddDSPH b))
  else if decide (t = "move") then
    v ← xyz command;
    mret (mkBuilder v (rotation b) (mk b) (drawmode b)
            (elementnum b) (shape b) (created b) (toAddDSPH b))
  else if decide (t = "rotate") then
    a ← (v ← attribute "ang" (attrib_of command); py_float v);
    '(x, y, z) ← xyz command;
    mret (mkBuilder (movement b) (a, x, y, z) (mk b) (drawmode b)
            (elementnum b) (shape b) (created b) (toAddDSPH b))
  else if decide (t = "drawbox") then
    shape ← subcommands (children_of command) (shape b);
    s ← local shape;
    let name := "Box" +:+ pretty (elementnum b) in
    let '(px, py, pz) := point s in
    let '(mx, my, mz) := movement b in
    let '(ra, rx, ry, rz) := rotation b in
    mret (mkBuilder (movement b) (rotation b) (mk b) (drawmode b) (elementnum b)
            shape
            (created b ++
               [mkBox name (px + mx, py + my, pz + mz)%float (rx, ry, rz) ra (size s)])
            (<[name := ((mk b).2, (mk b).1, drawmode b)]> (toAddDSPH b)))
  else Ok b.

(** The loop at lines 156-200 from a given state of the locals. *)
Fixpoint commands (mainlist : list element) (b : Builder) : result Builder :=
  match mainlist with
  | [] => Ok b
  | command :: rest =>
      b1 ← command_round command b;
      commands rest
        (mkBuilder (movement b1) (rotation b1) (mk b1) (drawmode b1)
           (S (elementnum b1)) (shape b1) (created b1) (toAddDSPH b1))
  end.

(** [create_fc_objects(f)], given the children of [<mainlist>] that
    [findall] returns: the boxes created and the dictionary returned. *)
Definition create_fc_objects (mainlist : list element) :
    result (list Box * gmap string (string * string * string)) :=
  b ← commands mainlist initial;
  mret (created b, toAddDSPH b).

(** A well-formed [drawbox] with the three children in the order the case
    files have them. *)
Definition drawbox_sample : element :=
  Element "drawbox" [] None
    [Element "boxfill" [] (Some "solid") [];
     Element "point" [("x", "0.1"); ("y", "0.2"); ("z", "0.3")] None [];
     Element "size" [("x", "1"); ("y", "2"); ("z", "3")] None []].

End XmlObjects.

Local Open Scope list_scope.
#[local] Set Warnings "-clear-no-such-hyp".


Section FocusProperties.
Import PyStr Registry.
Import Focus (shown, fill_target, fill_result).

Lemma setValue_cases v f :
  let s := property1 f.2 in
  (bound s v = value s ∧ Focus.setValue v f = f) ∨
  (bound s v ≠ value s ∧
   Focus.setValue v f =
     (mkSimObject (MkNumber (bound s v)) (kind f.1) (fillmode f.1),
      mkPanel (mkSpinBox (bound s v) (minimum s) (maximum s)) (property2 f.2) (property3 f.2))).
Proof.
  simpl. unfold Focus.setValue. destruct (decide _); [by left | right].
  split; [done | reflexivity].
Qed.

Lemma setRange_cases lo hi f :
  (lo < hi)%Z →
  let s := property1 f.2 in
  let b := Z.max lo (Z.min hi (value s)) in
  (b = value s ∧
   Focus.setRange lo hi f =
     (f.1, mkPanel (mkSpinBox (value s) lo hi) (property2 f.2) (property3 f.2))) ∨
  (b ≠ value s ∧
   Focus.setRange lo hi f =
     (mkSimObject (MkNumber b) (kind f.1) (fillmode f.1),
      mkPanel (mkSpinBox b lo hi) (property2 f.2) (property3 f.2))).
Proof.
  intros Hlt. cbv zeta. unfold Focus.setRange.
  destruct (decide (lo < hi)%Z) as [_|?]; [|lia].
  unfold bound. cbn [value minimum maximum].
  destruct (decide _); [left | right]; (split; [done | reflexivity]).
Qed.


Lemma property2_change_0 fillbox f :
  Focus.property2_change fillbox 0 f =
    if fillbox then (mkSimObject (mk f.1) "Fluid" (fillmode f.1), f.2)
    else Focus.setRange 0 10 (mkSimObject (mk f.1) "Fluid" (fillmode f.1), f.2).
Proof. unfold Focus.property2_change. by destruct fillbox. Qed.

Lemma property2_change_1 fillbox f :
  Focus.property2_change fillbox 1 f =
    if fillbox then (mkSimObject (mk f.1) "Bound" (fillmode f.1), f.2)
    else Focus.setRange 0 240 (mkSimObject (mk f.1) "Bound" (fillmode f.1), f.2).
Proof. unfold Focus.property2_change. by destruct fillbox. Qed.

Ltac split_range lo hi f :=
  let H := fresh "Hb" in let E := fresh "E" in
  destruct (setRange_cases lo hi f ltac:(lia)) as [[H E]|[H E]];
  cbv zeta in H, E; cbn [fst snd property1 property2 property3 value minimum maximum
                         mk kind fillmode] in H, E;
  rewrite E; clear E.

Ltac split_value n f :=
  let H := fresh "Hv" in let E := fresh "E" in
  destruct (setValue_cases n f) as [[H E]|[H E]];
  cbv zeta in H, E; unfold bound in H, E;
  cbn [fst snd property1 property2 property3 value minimum maximum
       mk kind fillmode] in H, E;
  rewrite E; clear E.

Ltac focus_simpl :=
  cbn [fst snd property1 property2 property3 value minimum maximum mk kind fillmode] in *.

Lemma lower_Fluid : lower "Fluid" = "fluid". Proof. reflexivity. Qed.
Lemma lower_Bound : lower "Bound" = "bound". Proof. reflexivity. Qed.

Ltac split_decisions :=
  repeat match goal with
  | |- context [decide (lower ?x = ?s)] => destruct (decide (lower x = s))
  end;
  unfold Focus.property2_setCurrentIndex; focus_simpl;
  repeat match goal with
  | |- context [decide (?a = ?b :> nat)] => destruct (decide (a = b)); [subst|]
  end; focus_simpl;
  rewrite ?property2_change_0, ?property2_change_1; focus_simpl;
  repeat match goal with
  | |- context [Focus.setRange ?lo ?hi ?f] =>
      lazymatch f with
      | context [Focus.setRange] => fail
      | _ => split_range lo hi f
      end
  end.

Ltac finish :=
  focus_simpl; rewrite ?lower_Fluid, ?lower_Bound in *;
  repeat match goal with
  | |- _ ∧ _ => split
  | |- ∃ m, MkNumber ?x = MkNumber m ∧ _ => exists x
  | |- _ → _ => intros ?
  end;
  simplify_eq; try reflexivity; try lia; try done.

(** What filling the table in leaves behind. *)
Lemma shown_after supported group fillbox e p n :
  ranged (property1 p) → mk e = MkNumber n → (n ≤ 240)%Z →
  shown supported group fillbox
    (Focus.show_kind supported group fillbox (Focus.setValue n (e, p))).
Proof.
  destruct e as [m k fm], p as [[v lo hi] i2 i3]. unfold ranged. simpl.
  intros [-> Hhi] -> Hn.
  split_value n (mkSimObject (MkNumber n) k fm, mkPanel (mkSpinBox v 0 hi) i2 i3).
  all: unfold Focus.show_kind; focus_simpl.
  all: destruct supported, group, fillbox; cbn [andb].
  all: split_decisions.
  all: unfold shown, ranged, bound; cbn [andb]; finish.
Qed.

(** Once the table has been filled in, filling it in again leaves the
    value as it is. *)
Lemma shown_quiet supported group fillbox f m :
  shown supported group fillbox f → mk f.1 = MkNumber m →
  (Focus.show_kind supported group fillbox (Focus.setValue m f)).1 = f.1.
Proof.
  destruct f as [[m0 k fm] [[v lo hi] i2 i3]]. unfold shown, ranged. focus_simpl.
  intros ([-> Hhi] & (m' & Hm' & Hq) & Hv & Hidx) ->. simplify_eq.
  unfold bound in Hq. focus_simpl.
  split_value m' (mkSimObject (MkNumber m') k fm, mkPanel (mkSpinBox v 0 hi) i2 i3).
  all: unfold Focus.show_kind; focus_simpl.
  all: destruct supported, group, fillbox; cbn [andb] in *.
  all: split_decisions.
  all: finish.
  all: try (repeat f_equal; lia).
  all: try (destruct Hidx as [H1 H2]; try (destruct (H1 ltac:(done)); lia);
            try (destruct (H2 ltac:(done) ltac:(done)); lia)).
  all: try (repeat f_equal; lia).
Qed.


(** The steps before the fill mode neither read nor write the fill mode
    and the index of [property3]. *)
Lemma setRange_with_fill lo hi fm i f :
  Focus.setRange lo hi (Focus.with_fill fm i f) = Focus.with_fill fm i (Focus.setRange lo hi f).
Proof.
  unfold Focus.setRange. cbn [Focus.with_fill fst snd property1].
  destruct (decide _); reflexivity.
Qed.

Lemma setValue_with_fill v fm i f :
  Focus.setValue v (Focus.with_fill fm i f) = Focus.with_fill fm i (Focus.setValue v f).
Proof.
  unfold Focus.setValue. cbn [Focus.with_fill fst snd property1].
  destruct (decide _); reflexivity.
Qed.

Lemma property2_setCurrentIndex_with_fill fillbox index fm i f :
  Focus.property2_setCurrentIndex fillbox index (Focus.with_fill fm i f) =
  Focus.with_fill fm i (Focus.property2_setCurrentIndex fillbox index f).
Proof.
  unfold Focus.property2_setCurrentIndex. cbn [Focus.with_fill fst snd property2].
  destruct (decide _); [done|].
  unfold Focus.property2_change. cbn [fst snd].
  destruct fillbox; [done|].
  repeat destruct (decide _); rewrite <- ?setRange_with_fill; reflexivity.
Qed.

Lemma show_kind_with_fill supported group fillbox fm i f :
  Focus.show_kind supported group fillbox (Focus.with_fill fm i f) =
  Focus.with_fill fm i (Focus.show_kind supported group fillbox f).
Proof.
  unfold Focus.show_kind. cbn [Focus.with_fill fst kind].
  destruct supported; [|destruct (group && fillbox)];
    repeat destruct (decide _);
    by rewrite ?property2_setCurrentIndex_with_fill, ?setRange_with_fill.
Qed.

Lemma show_fill_spec supported f :
  Focus.show_fill supported f =
    Focus.with_fill (fill_result supported (fillmode f.1) (property3 f.2)).1
      (fill_result supported (fillmode f.1) (property3 f.2)).2 f.
Proof.
  destruct f as [[m k fm] [s i2 i3]].
  unfold fill_result, fill_target, Focus.show_fill, Focus.property3_setCurrentIndex.
  cbn [fst snd fillmode property3].
  destruct supported; repeat destruct (decide _); reflexivity.
Qed.

Lemma fill_target_written supported fm j :
  fill_target supported fm = Some j →
  fill_target supported (itemText property3_items j) = Some j.
Proof.
  destruct supported; [|done]. intros H.
  assert (j = 0 ∨ j = 1 ∨ j = 2 ∨ j = 3) as Hj.
  { unfold fill_target in H. repeat destruct (decide _); simplify_eq; tauto. }
  destruct Hj as [->|[->|[->| ->]]]; reflexivity.
Qed.

Lemma fill_result_idem supported fm i :
  fill_result supported (fill_result supported fm i).1 (fill_result supported fm i).2 =
  fill_result supported fm i.
Proof.
  unfold fill_result at 2 3 4.
  destruct (fill_target supported fm) as [j|] eqn:Et; cbn [fst snd].
  - destruct (decide (j = i)) as [->|Hne]; cbn [fst snd].
    + unfold fill_result. rewrite Et. by rewrite decide_True.
    + unfold fill_result. rewrite (fill_target_written _ _ _ Et).
      by rewrite decide_True.
  - unfold fill_result. by rewrite Et.
Qed.

End FocusProperties.

Section FocusProperties2.
Import PyStr Registry.
Import Focus (shown, fill_target, fill_result).
(** Filling the table in a second time leaves the value as the first time
    left it. *)
Lemma focus_show_twice supported group fillbox e p n :
  ranged (property1 p) → mk e = MkNumber n → (n ≤ 240)%Z →
  ∃ m, mk (Focus.show supported group fillbox n (e, p)).1 = MkNumber m ∧
       (Focus.show supported group fillbox m
          (Focus.show supported group fillbox n (e, p))).1 =
       (Focus.show supported group fillbox n (e, p)).1.
Proof.
  intros Hr Hmk Hn.
  pose proof (shown_after supported group fillbox e p n Hr Hmk Hn) as Hs.
  unfold Focus.show. set (g := Focus.show_kind _ _ _ (Focus.setValue n (e, p))) in *.
  pose proof Hs as (_ & (m & Hm & _) & _).
  exists m. rewrite (show_fill_spec supported g). split; [done|].
  set (r := fill_result supported (fillmode g.1) (property3 g.2)).
  rewrite setValue_with_fill, show_kind_with_fill.
  pose proof (shown_quiet supported group fillbox g m Hs Hm) as Hq.
  set (g2 := Focus.show_kind _ _ _ (Focus.setValue m g)) in *.
  rewrite (show_fill_spec supported (Focus.with_fill r.1 r.2 g2)).
  cbn [Focus.with_fill fst snd fillmode property3 mk kind].
  unfold r. rewrite fill_result_idem, Hq. done.
Qed.


End FocusProperties2.


(** * The slots on the state and on the selected value agree *)
Section FocusAgreement.
Import PyStr Registry.
Import Focus (embed).

Lemma keys_dict_update key f sim : keys (dict_update key f sim) = keys sim.
Proof.
  unfold keys, dict_update. rewrite <- list_fmap_compose.
  apply list_fmap_ext. intros i [k v] _. simpl. by destruct (decide _).
Qed.

Lemma dict_update_update key f e sim :
  dict_update key f (dict_update key (λ _, e) sim) = dict_update key (λ _, f e) sim.
Proof.
  unfold dict_update. rewrite <- list_fmap_compose.
  apply list_fmap_ext. intros i [k v] _. simpl.
  destruct (decide (k = key)) as [->|Hne]; simpl.
  - by rewrite decide_True.
  - by rewrite decide_False.
Qed.

Lemma dict_get_update key e sim :
  key ∈ keys sim → dict_get key (dict_update key (λ _, e) sim) = Some e.
Proof.
  unfold keys. induction sim as [|[k v] sim IH]; [by intros ?%elem_of_nil|].
  rewrite fmap_cons, elem_of_cons. simpl. intros Hin.
  destruct (decide (k = key)) as [->|Hne]; simpl.
  - by rewrite decide_True.
  - rewrite decide_False by done. apply IH. destruct Hin; [congruence | done].
Qed.

Lemma dict_get_Some key sim e : dict_get key sim = Some e → (key, e) ∈ sim.
Proof.
  induction sim as [|[k v] sim IH]; simpl; [done|].
  destruct (decide (k = key)) as [->|Hne].
  - intros [= ->]. left.
  - intros H. right. by apply IH.
Qed.

Lemma dict_get_is_Some key sim : key ∈ keys sim → is_Some (dict_get key sim).
Proof.
  unfold keys. induction sim as [|[k v] sim IH]; [by intros ?%elem_of_nil|].
  rewrite fmap_cons, elem_of_cons. simpl. intros Hin.
  destruct (decide (k = key)); [by eexists|].
  apply IH. destruct Hin; [congruence | done].
Qed.

(** With every key once, writing the value a key has changes nothing. *)
Lemma dict_update_same key e sim :
  NoDup (keys sim) → dict_get key sim = Some e →
  dict_update key (λ _, e) sim = sim.
Proof.
  unfold keys, dict_update. induction sim as [|[k v] sim IH]; [done|].
  rewrite fmap_cons. simpl. intros [Hk Hnd]%NoDup_cons.
  destruct (decide (k = key)) as [->|Hne]; simpl.
  - intros [= ->]. f_equal.
    rewrite <- (list_fmap_id sim) at 2. apply list_fmap_ext.
    intros i [k' v'] Hi. simpl. rewrite decide_False; [done|].
    intros ->. apply Hk. apply list_elem_of_fmap. exists (key, v').
    split; [done|]. by eapply list_elem_of_lookup_2.
  - intros H. f_equal. by apply IH.
Qed.

Lemma embed_self name sim eo e p :
  NoDup (keys sim) → dict_get name sim = Some e →
  mkState (mkData sim eo) p = embed name sim eo (e, p).
Proof. intros Hnd Hg. unfold embed. simpl. by rewrite dict_update_same. Qed.

Section Selected.
Variable o : DocumentObject.
Variable sim : list (string * SimObject).
Variable eo : list string.
Hypothesis registered : Name o ∈ keys sim.

Abbreviation emb := (embed (Name o) sim eo).
Abbreviation fillbox := (contains "fillbox" (lower (Name o))).

Lemma property1_change_embed v f :
  property1_change [o] v (emb f) = emb (Focus.property1_change v f).
Proof.
  unfold property1_change, Focus.property1_change, embed, with_simobjects. simpl.
  by rewrite dict_update_update.
Qed.

Lemma setValue_embed v f : setValue [o] v (emb f) = emb (Focus.setValue v f).
Proof.
  unfold setValue, Focus.setValue. cbn [embed panel].
  destruct (decide _); [done|].
  rewrite <- property1_change_embed. done.
Qed.

Lemma setRange_embed lo hi f : setRange [o] lo hi (emb f) = emb (Focus.setRange lo hi f).
Proof.
  unfold setRange, Focus.setRange. cbn [embed panel].
  destruct (decide (bound _ _ = _)); [done|].
  rewrite <- property1_change_embed. done.
Qed.

Lemma property2_change_embed index f :
  property2_change [o] index (emb f) = emb (Focus.property2_change fillbox index f).
Proof.
  unfold property2_change, Focus.property2_change.
  cbn [embed data simobjects]. rewrite keys_dict_update.
  destruct (decide (Name o ∈ keys sim)) as [_|?]; [|done].
  unfold with_simobjects. cbn [data simobjects export_order panel].
  rewrite dict_update_update. cbn [mk fillmode].
  destruct fillbox; [done|].
  repeat destruct (decide _); rewrite <- ?setRange_embed; reflexivity.
Qed.

Lemma property3_change_embed index f :
  property3_change [o] index (emb f) = emb (Focus.property3_change index f).
Proof.
  unfold property3_change, Focus.property3_change, embed, with_simobjects. simpl.
  by rewrite dict_update_update.
Qed.

Lemma property2_setCurrentIndex_embed index f :
  property2_setCurrentIndex [o] index (emb f) =
  emb (Focus.property2_setCurrentIndex fillbox index f).
Proof.
  unfold property2_setCurrentIndex, Focus.property2_setCurrentIndex.
  cbn [embed panel]. destruct (decide _); [done|].
  by rewrite <- property2_change_embed.
Qed.

Lemma property3_setCurrentIndex_embed index f :
  property3_setCurrentIndex [o] index (emb f) =
  emb (Focus.property3_setCurrentIndex index f).
Proof.
  unfold property3_setCurrentIndex, Focus.property3_setCurrentIndex.
  cbn [embed panel]. destruct (decide _); [done|].
  by rewrite <- property3_change_embed.
Qed.

Lemma entry_of_embed f : entry_of o (emb f) = Ok f.1.
Proof. unfold entry_of. cbn [embed data simobjects]. by rewrite dict_get_update. Qed.

Variable supported_types : list string.
Abbreviation supported := (bool_decide (TypeId o ∈ supported_types)).
Abbreviation group := (bool_decide (TypeId o = "App::DocumentObjectGroup")).

Lemma show_kind_embed f :
  show_kind supported_types o (emb f) =
    (emb (Focus.show_kind supported group fillbox f), Returned).
Proof.
  unfold show_kind, Focus.show_kind. rewrite entry_of_embed.
  destruct (decide (TypeId o ∈ supported_types)).
  - rewrite (bool_decide_eq_true_2 (TypeId o ∈ supported_types)) by done.
    repeat destruct (decide _);
      by rewrite ?property2_setCurrentIndex_embed, ?setRange_embed.
  - rewrite (bool_decide_eq_false_2 (TypeId o ∈ supported_types)) by done.
    destruct (group && fillbox); by rewrite property2_setCurrentIndex_embed.
Qed.

Lemma show_fill_embed f :
  show_fill supported_types o (emb f) = (emb (Focus.show_fill supported f), Returned).
Proof.
  unfold show_fill, Focus.show_fill. rewrite entry_of_embed.
  destruct (decide (TypeId o ∈ supported_types)).
  - rewrite (bool_decide_eq_true_2 (TypeId o ∈ supported_types)) by done.
    repeat destruct (decide _); by rewrite ?property3_setCurrentIndex_embed.
  - rewrite (bool_decide_eq_false_2 (TypeId o ∈ supported_types)) by done.
    by rewrite property3_setCurrentIndex_embed.
Qed.

(** Filling the table in stops at a first cell that is no number for the
    spin box and otherwise runs the three steps on the selected value. *)
Lemma show_properties_embed f :
  show_properties supported_types o (emb f) =
    match mk f.1 with
    | MkText _ => (emb f, Raised TypeError)
    | MkNumber n =>
        if decide (c_int n)
        then (emb (Focus.show supported group fillbox n f), Returned)
        else (emb f, Raised OverflowError)
    end.
Proof.
  unfold show_properties, show_number. rewrite entry_of_embed.
  destruct (mk f.1) as [n|s]; [|done].
  destruct (decide (c_int n)); [|done].
  rewrite setValue_embed. cbn [and_then]. rewrite show_kind_embed. cbn [and_then].
  by rewrite show_fill_embed.
Qed.

End Selected.
End FocusAgreement.


(** * Properties of the object registry *)

Section RegistryProperties.
Import Registry.

Lemma filter_all {A} (P : A → Prop) `{∀ x, Decision (P x)} (l : list A) :
  (∀ x, x ∈ l → P x) → filter P l = l.
Proof.
  induction l as [|a l IH]; intros HP; [done|].
  rewrite filter_cons_True by (apply HP; left).
  f_equal. apply IH. intros x Hx. apply HP. by right.
Qed.

Lemma filter_ext_in {A} (P Q : A → Prop) `{∀ x, Decision (P x)} `{∀ x, Decision (Q x)}
    (l : list A) :
  (∀ x, x ∈ l → P x ↔ Q x) → filter P l = filter Q l.
Proof.
  induction l as [|a l IH]; intros HPQ; [done|].
  assert (filter P l = filter Q l) as E.
  { apply IH. intros x Hx. apply HPQ. by right. }
  destruct (decide (P a)) as [Ha|Ha].
  - rewrite !filter_cons_True; [by f_equal | by apply HPQ; [left|] | done].
  - rewrite !filter_cons_False; [done | | done].
    intros HQ. apply Ha, HPQ; [left|done].
Qed.

Lemma remove_first_NoDup x l :
  NoDup l → remove_first x l = filter (λ y, y ≠ x) l.
Proof.
  induction 1 as [|y l Hy Hl IH]; [done|]. simpl.
  destruct (decide (x = y)) as [->|Hxy].
  - rewrite filter_cons_False by (intros ?; done).
    symmetry. apply filter_all. intros z Hz ->. done.
  - rewrite filter_cons_True by done. by rewrite IH.
Qed.

Lemma getObject_Name doc k o : getObject doc k = Some o → Name o = k.
Proof.
  induction doc as [|o' doc IH]; simpl; [done|].
  destruct (decide (Name o' = k)); [by intros [= <-] | done].
Qed.

Lemma getObject_names doc k : k ∈ Name <$> doc ↔ live doc k.
Proof.
  unfold live. induction doc as [|o doc IH]; simpl.
  - split; [by intros ?%elem_of_nil | by intros [? [=]]].
  - rewrite elem_of_cons. destruct (decide (Name o = k)) as [E|E].
    + split; [eauto | by left].
    + rewrite IH. split; [intros [?|?]; [congruence|done] | by right].
Qed.

Lemma keys_filter (P : string → Prop) `{∀ x, Decision (P x)} (sim : list (string * SimObject)) :
  keys (filter (λ kv, P kv.1) sim) = filter P (keys sim).
Proof.
  unfold keys. induction sim as [|[k v] sim IH]; [done|].
  rewrite fmap_cons. simpl fst.
  destruct (decide (P k)).
  - rewrite !filter_cons_True by done. rewrite fmap_cons. by rewrite IH.
  - by rewrite !filter_cons_False by done.
Qed.

(** The deletion pass is the parent pass run on the keys that are gone. *)
Lemma detect_deletion_prune names ks d :
  detect_deletion names ks d = prune_with_parent (filter (λ k, k ∉ names) ks) d.
Proof.
  revert d. induction ks as [|k ks IH]; intros d; [done|]. simpl.
  destruct (decide (k ∈ names)) as [Hk|Hk].
  - rewrite filter_cons_False by (intros ?; done). apply IH.
  - rewrite filter_cons_True by done. simpl.
    destruct (list_remove k (export_order d)); [apply IH | done].
Qed.

Lemma prune_with_parent_NoDup gone d :
  NoDup (export_order d) → NoDup gone → gone ⊆ export_order d →
  prune_with_parent gone d =
    (mkData (filter (λ kv, kv.1 ∉ gone) (simobjects d))
            (filter (λ k, k ∉ gone) (export_order d)), Returned).
Proof.
  revert d. induction gone as [|k gone IH]; intros [sim eo] Heo Hgone Hsub; simpl in *.
  - rewrite !filter_all; [done | intros ? _; apply not_elem_of_nil
                          | intros ? _; apply not_elem_of_nil].
  - apply NoDup_cons in Hgone as [Hk Hgone].
    unfold list_remove. rewrite decide_True by (apply Hsub; left).
    rewrite remove_first_NoDup by done.
    rewrite IH; simpl.
    + unfold dict_pop. rewrite !list_filter_filter. f_equal; f_equal.
      * apply filter_ext_in. intros [k' v] _. simpl. rewrite not_elem_of_cons. tauto.
      * apply filter_ext_in. intros k' _. rewrite not_elem_of_cons. tauto.
    + by apply NoDup_filter.
    + done.
    + intros k' Hk'. apply list_elem_of_filter. split; [by intros -> |].
      apply Hsub. by right.
Qed.

Lemma scan_export_order_live doc fuel i eo owp :
  (∀ k, k ∈ eo → live doc k) → length eo - i < fuel →
  scan_export_order fuel i doc eo owp =
    Some (eo, owp ++ filter (has_parent doc) (drop i eo)).
Proof.
  intros Hlive. revert i owp. induction fuel as [|fuel IH]; intros i owp Hf; [lia|].
  simpl. destruct (eo !! i) as [key|] eqn:Hi.
  - pose proof (lookup_lt_Some _ _ _ Hi) as Hlt.
    rewrite (drop_S _ _ _ Hi).
    destruct (Hlive key) as [o Ho]; [by eapply list_elem_of_lookup_2|].
    rewrite Ho. pose proof (getObject_Name _ _ _ Ho) as HN.
    destruct (decide (InList o = [])) as [E|E].
    + rewrite IH by lia. rewrite filter_cons_False; [done|].
      intros (o' & Ho' & Hne). congruence.
    + rewrite IH by lia. rewrite filter_cons_True by (exists o; done).
      rewrite HN. by rewrite <- app_assoc.
  - apply lookup_ge_None in Hi. rewrite drop_ge by done.
    rewrite filter_nil. by rewrite app_nil_r.
Qed.

(** With enough fuel for one round per entry the scan always stops by
    itself: every round moves the index forward and the list never grows. *)
Lemma scan_export_order_terminates doc fuel i eo owp :
  length eo - i < fuel → is_Some (scan_export_order fuel i doc eo owp).
Proof.
  revert i eo owp. induction fuel as [|fuel IH]; intros i eo owp Hf; [lia|].
  simpl. destruct (eo !! i) as [key|] eqn:Hi; [|done].
  pose proof (lookup_lt_Some _ _ _ Hi) as Hlt.
  destruct (getObject doc key) as [o|].
  - destruct (decide (InList o = [])); apply IH; lia.
  - apply IH.
    assert (length (remove_first key eo) ≤ length eo)%nat; [|lia].
    clear. induction eo as [|y eo IHeo]; simpl; [done|].
    destruct (decide (key = y)); simpl; lia.
Qed.

(** On a synchronised state the deletion pass filters both structures by
    the objects that are still in the document. *)
Lemma deletion_pass_synced doc d :
  synced d →
  detect_deletion (Name <$> doc) (keys (simobjects d)) d =
    (mkData (filter (λ kv, live doc kv.1) (simobjects d))
            (filter (live doc) (export_order d)), Returned).
Proof.
  destruct d as [sim eo]. intros [Hk Hperm]; simpl in *.
  assert (NoDup eo) as Heo by (by rewrite Hperm).
  rewrite detect_deletion_prune.
  rewrite prune_with_parent_NoDup; cbn [simobjects export_order];
    [|done|by apply NoDup_filter|].
  2:{ intros k [_ Hin]%list_elem_of_filter. by rewrite Hperm. }
  f_equal. f_equal.
  - apply filter_ext_in. intros [k v] Hin. simpl.
    rewrite list_elem_of_filter, <- getObject_names.
    assert (k ∈ keys sim) by (apply list_elem_of_fmap; by exists (k, v)).
    split; [|tauto]. intros Hn. destruct (decide (k ∈ Name <$> doc)); tauto.
  - apply filter_ext_in. intros k Hin.
    rewrite list_elem_of_filter, <- getObject_names.
    assert (k ∈ keys sim) by (by rewrite <- Hperm).
    split; [|tauto]. intros Hn. destruct (decide (k ∈ Name <$> doc)); tauto.
Qed.

(** On a synchronised state whose identifiers are all in the document, the
    update of the object list filters both structures by the top-level
    objects. *)
Lemma update_object_list_synced doc st :
  synced (data st) → (∀ k, k ∈ export_order (data st) → live doc k) →
  update_object_list doc st =
    (with_data st
       (mkData (filter (λ kv, top_level doc kv.1) (simobjects (data st)))
               (filter (top_level doc) (export_order (data st)))), Returned).
Proof.
  destruct st as [[sim eo] p]. intros [Hk Hperm] Hlive; simpl in *.
  assert (NoDup eo) as Heo by (by rewrite Hperm).
  unfold update_object_list. cbn [data simobjects export_order].
  assert ((if decide (length eo = 0) then keys sim else eo) = eo) as ->.
  { destruct (decide (length eo = 0)) as [E|E]; [|done].
    apply nil_length_inv in E. rewrite E in Hperm |- *.
    symmetry in Hperm. by apply Permutation_nil_r in Hperm. }
  rewrite scan_export_order_live; [|done|lia].
  rewrite drop_0, app_nil_l.
  rewrite prune_with_parent_NoDup; cbn [simobjects export_order];
    [|done|by apply NoDup_filter|by intros k [_ ?]%list_elem_of_filter].
  assert (∀ k, k ∈ eo → k ∉ filter (has_parent doc) eo ↔ top_level doc k) as Htop.
  { intros k Hk1. rewrite list_elem_of_filter.
    destruct (Hlive k Hk1) as [o Ho].
    unfold has_parent, top_level. split.
    - intros Hnp. exists o. split; [done|].
      destruct (decide (InList o = [])) as [E|E]; [done|].
      exfalso. apply Hnp. split; [by exists o | done].
    - intros (o1 & Ho1 & E) [(o2 & Ho2 & Hne) _]. congruence. }
  unfold with_data. cbn [panel]. f_equal. f_equal. f_equal.
  - apply filter_ext_in. intros [k v] Hin. simpl.
    apply Htop. rewrite Hperm. apply list_elem_of_fmap. by exists (k, v).
  - by apply filter_ext_in.
Qed.

(** What one run does to a synchronised state. *)
Lemma reconcile_synced supported_types doc sel st :
  synced (data st) →
  let d1 := mkData (filter (λ kv, live doc kv.1) (simobjects (data st)))
                   (filter (live doc) (export_order (data st))) in
  on_tree_item_selection_change supported_types doc sel st =
    if returns_early sel then (with_data st d1, Returned)
    else and_then (selection_block supported_types sel (with_data st d1))
           (update_object_list doc).
Proof.
  intros Hs. cbv zeta. unfold on_tree_item_selection_change.
  by rewrite (deletion_pass_synced doc _ Hs).
Qed.

End RegistryProperties.


Section RegistryClaims.
Import PyStr Registry.
Import Focus (embed).

Lemma synced_filter (P : string → Prop) `{∀ x, Decision (P x)} sim eo :
  synced (mkData sim eo) →
  synced (mkData (filter (λ kv, P kv.1) sim) (filter P eo)).
Proof.
  intros [Hk Hperm]; simpl in *. split; simpl.
  - rewrite keys_filter. by apply NoDup_filter.
  - rewrite keys_filter. by rewrite Hperm.
Qed.

Lemma top_level_live doc k : top_level doc k → live doc k.
Proof. intros (o & Ho & _). by exists o. Qed.

Lemma top_level_not_deleted doc k : top_level doc k → ¬ deleted doc k.
Proof. intros (o & Ho & _). unfold deleted. congruence. Qed.

Lemma top_level_no_parent doc k : top_level doc k → ¬ has_parent doc k.
Proof. intros (o & Ho & E) (o' & Ho' & Hne). congruence. Qed.

Lemma filter_dict_update (P : string → Prop) `{∀ x, Decision (P x)} key f sim :
  filter (λ kv, P kv.1) (dict_update key f sim) =
  dict_update key f (filter (λ kv, P kv.1) sim).
Proof.
  unfold dict_update. induction sim as [|[k v] sim IH]; [done|].
  rewrite fmap_cons. cbn [fst snd].
  destruct (decide (P k)) as [HP|HP].
  - rewrite (filter_cons_True _ (k, v)) by done. rewrite fmap_cons. cbn [fst snd].
    destruct (decide (k = key)); (rewrite filter_cons_True by done); by rewrite IH.
  - rewrite (filter_cons_False _ (k, v)) by done.
    destruct (decide (k = key)); (rewrite filter_cons_False by done); by rewrite IH.
Qed.

Lemma numbered_filter (P : string * SimObject → Prop) `{∀ x, Decision (P x)} sim eo eo' :
  numbered (mkData sim eo) → numbered (mkData (filter P sim) eo').
Proof. intros Hn kv [_ Hin]%list_elem_of_filter. by apply Hn. Qed.

Lemma numbers_fit_filter (P : string * SimObject → Prop) `{∀ x, Decision (P x)} sim eo eo' :
  numbers_fit (mkData sim eo) → numbers_fit (mkData (filter P sim) eo').
Proof. intros Hn kv n [_ Hin]%list_elem_of_filter. by apply Hn. Qed.

(** The selection block on a single selected object that is registered. *)
Lemma selection_block_registered supported_types o st e :
  NoDup (keys (simobjects (data st))) →
  dict_get (Name o) (simobjects (data st)) = Some e →
  selection_block supported_types [o] st =
    match mk e with
    | MkText _ => (st, Raised TypeError)
    | MkNumber n =>
        if decide (c_int n)
        then (embed (Name o) (simobjects (data st)) (export_order (data st))
                (Focus.show (bool_decide (TypeId o ∈ supported_types))
                   (bool_decide (TypeId o = "App::DocumentObjectGroup"))
                   (contains "fillbox" (lower (Name o))) n (e, panel st)), Returned)
        else (st, Raised OverflowError)
    end.
Proof.
  destruct st as [[sim eo] p]. cbn [data simobjects export_order panel].
  intros Hnd Hg.
  assert (Name o ∈ keys sim) as Hin.
  { apply list_elem_of_fmap. exists (Name o, e). split; [done|]. by apply dict_get_Some. }
  unfold selection_block. cbn [data simobjects].
  rewrite decide_True by done.
  rewrite (embed_self (Name o) sim eo e p Hnd Hg).
  rewrite (show_properties_embed o sim eo Hin supported_types (e, p)).
  cbn [fst]. destruct (mk e) as [n|s]; [|done]. by destruct (decide (c_int n)).
Qed.

(** The selection block on any other selection. *)
Lemma selection_block_idle supported_types sel st :
  (∀ o, sel = [o] → Name o ∉ keys (simobjects (data st))) →
  selection_block supported_types sel st = (st, Returned).
Proof.
  intros H. unfold selection_block. destruct sel as [|o [|o' sel]]; [done| |done].
  by rewrite decide_False by (by apply H).
Qed.

Lemma selection_cases (sel : list DocumentObject) (ks : list string) :
  (∃ o, sel = [o] ∧ Name o ∈ ks) ∨ (∀ o, sel = [o] → Name o ∉ ks).
Proof.
  destruct sel as [|o [|o' sel]]; [by right | | by right].
  destruct (decide (Name o ∈ ks)); [left; eauto | right].
  by intros o' [= <-].
Qed.

(** The selection block never adds or drops an identifier. *)
Lemma selection_block_frame supported_types sel st :
  NoDup (keys (simobjects (data st))) →
  keys (simobjects (data (selection_block supported_types sel st).1)) =
    keys (simobjects (data st)) ∧
  export_order (data (selection_block supported_types sel st).1) =
    export_order (data st).
Proof.
  intros Hnd.
  destruct (selection_cases sel (keys (simobjects (data st))))
    as [(o & -> & Hin)|Hno].
  - destruct (dict_get_is_Some _ _ Hin) as [e He].
    rewrite (selection_block_registered _ _ _ e Hnd He).
    destruct (mk e) as [n|s]; [|done]. destruct (decide (c_int n)); [|done].
    cbn [fst embed data simobjects export_order]. by rewrite keys_dict_update.
  - by rewrite selection_block_idle.
Qed.

(** On numbered entries the selection block returns. *)
Lemma selection_block_returns supported_types sel st :
  NoDup (keys (simobjects (data st))) → numbered (data st) →
  returns_early sel = false →
  (selection_block supported_types sel st).2 = Returned.
Proof.
  intros Hnd Hnum He.
  destruct (selection_cases sel (keys (simobjects (data st))))
    as [(o & -> & Hin)|Hno].
  - destruct (dict_get_is_Some _ _ Hin) as [e Hg].
    rewrite (selection_block_registered _ _ _ e Hnd Hg).
    assert (is_number (mk e)) as Hn.
    { apply (Hnum (Name o, e)); [by apply dict_get_Some|]. simpl.
      cbn in He. by apply bool_decide_eq_false in He. }
    destruct (mk e) as [n|s]; [|done]. simpl in Hn. by rewrite decide_True.
  - by rewrite selection_block_idle.
Qed.


End RegistryClaims.


Section SecondRun.
Import PyStr Registry.
Import Focus (embed).

Lemma with_data_self st : with_data st (data st) = st.
Proof. by destruct st. Qed.

(** A run on a synchronised state whose identifiers are all in the
    document starts with a deletion pass that finds nothing. *)
Lemma reconcile_live supported_types doc sel st :
  synced (data st) → (∀ k, k ∈ export_order (data st) → live doc k) →
  on_tree_item_selection_change supported_types doc sel st =
    if returns_early sel then (st, Returned)
    else and_then (selection_block supported_types sel st) (update_object_list doc).
Proof.
  intros Hs Hlive. rewrite (reconcile_synced _ _ _ _ Hs).
  destruct st as [[sim eo] p]. cbn [data simobjects export_order] in *.
  rewrite !filter_all; [done|done|].
  intros [k v] Hin. apply Hlive. destruct Hs as [_ Hp]. simpl in Hp. rewrite Hp.
  apply list_elem_of_fmap. by exists (k, v).
Qed.

(** The update of the object list changes nothing on a settled state. *)
Lemma update_object_list_settled doc st :
  synced (data st) → settled doc (data st) →
  update_object_list doc st = (st, Returned).
Proof.
  intros Hs Hset. rewrite update_object_list_synced; [|done|].
  2:{ intros k Hk. by apply top_level_live, Hset. }
  destruct st as [[sim eo] p]. cbn [data simobjects export_order] in *.
  rewrite !filter_all; [done|done|].
  intros [k v] Hin. apply Hset. destruct Hs as [_ Hp]. simpl in *. rewrite Hp.
  apply list_elem_of_fmap. by exists (k, v).
Qed.

Lemma settled_filter doc sim eo :
  settled doc (mkData sim (filter (top_level doc) eo)).
Proof. by intros k [? _]%list_elem_of_filter. Qed.


End SecondRun.


Section RegistryExamples.
Import PyStr Registry.





End RegistryExamples.

Section ReorderProperties.
Import PyStr Registry.

(** On a settled state a run keeps the identifiers and their order,
    whatever the selection block does to the selected value. *)
Lemma reconcile_settled supported_types doc sel st :
  synced (data st) → settled doc (data st) →
  keys (simobjects (data (on_tree_item_selection_change supported_types doc sel st).1)) =
    keys (simobjects (data st)) ∧
  export_order (data (on_tree_item_selection_change supported_types doc sel st).1) =
    export_order (data st).
Proof.
  intros Hs Hset. rewrite reconcile_live; [|done|].
  2:{ intros k Hk. by apply top_level_live, Hset. }
  destruct (returns_early sel); [done|].
  pose proof (selection_block_frame supported_types sel st (proj1 Hs)) as [Hk He].
  destruct (selection_block supported_types sel st) as [st2 [|e]]; simpl in *; [|done].
  rewrite update_object_list_settled; [done| |].
  - destruct Hs as [Hnd Hp]. split; [by rewrite Hk | by rewrite He, Hk].
  - intros k. rewrite He. apply Hset.
Qed.

(** With numbered entries it returns as well. *)
Lemma reconcile_settled_returns supported_types doc sel st :
  synced (data st) → settled doc (data st) → numbered (data st) →
  (on_tree_item_selection_change supported_types doc sel st).2 = Returned.
Proof.
  intros Hs Hset Hnum. rewrite reconcile_live; [|done|].
  2:{ intros k Hk. by apply top_level_live, Hset. }
  destruct (returns_early sel) eqn:He; [done|].
  pose proof (selection_block_frame supported_types sel st (proj1 Hs)) as [Hk Heo].
  pose proof (selection_block_returns supported_types sel st (proj1 Hs) Hnum He) as Hr.
  destruct (selection_block supported_types sel st) as [st2 o2]; simpl in *. subst o2.
  rewrite update_object_list_settled; [done| |].
  - destruct Hs as [Hnd Hp]. split; [by rewrite Hk | by rewrite Heo, Hk].
  - intros k. rewrite Heo. apply Hset.
Qed.

Lemma remove_first_middle c l1 l2 :
  c ∉ l1 → remove_first c (l1 ++ c :: l2) = l1 ++ l2.
Proof.
  induction l1 as [|y l1 IH]; intros Hc; simpl.
  - by rewrite decide_True.
  - apply not_elem_of_cons in Hc as [Hcy Hc].
    rewrite decide_False by done. by rewrite IH.
Qed.

Lemma insert_before_absent p c l : p ∉ l → insert_before p c l = l.
Proof.
  unfold insert_before. induction l as [|y l IH]; intros Hp; [done|].
  apply not_elem_of_cons in Hp as [Hpy Hp]. simpl.
  rewrite decide_False by done. simpl. by rewrite IH.
Qed.

Lemma insert_after_absent n c l : n ∉ l → insert_after n c l = l.
Proof.
  unfold insert_after. induction l as [|y l IH]; intros Hn; [done|].
  apply not_elem_of_cons in Hn as [Hny Hn]. simpl.
  rewrite decide_False by done. simpl. by rewrite IH.
Qed.

Lemma insert_before_middle p c l1 l2 :
  p ∉ l1 → p ∉ l2 → insert_before p c (l1 ++ p :: l2) = l1 ++ c :: p :: l2.
Proof.
  intros H1 H2. unfold insert_before. rewrite flat_map_app. simpl.
  rewrite decide_True by done. simpl.
  fold (insert_before p c l1). fold (insert_before p c l2).
  by rewrite !insert_before_absent.
Qed.

Lemma insert_after_middle n c l1 l2 :
  n ∉ l1 → n ∉ l2 → insert_after n c (l1 ++ n :: l2) = l1 ++ n :: c :: l2.
Proof.
  intros H1 H2. unfold insert_after. rewrite flat_map_app. simpl.
  rewrite decide_True by done. simpl.
  fold (insert_after n c l1). fold (insert_after n c l2).
  by rewrite !insert_after_absent.
Qed.

(** "Move Up" on the row that shows [c] puts it before its neighbour and
    hands over to the reconcile step. *)
Lemma on_cell_click_up_step supported_types doc sel sim l1 p c l2 panel0 :
  synced (mkData sim (l1 ++ p :: c :: l2)) →
  on_cell_click supported_types doc sel (length l1) 1
    (mkState (mkData sim (l1 ++ p :: c :: l2)) panel0) =
  on_tree_item_selection_change supported_types doc sel
    (mkState (mkData sim (l1 ++ c :: p :: l2)) panel0).
Proof.
  intros Hs. pose proof Hs as [Hk Hperm]. simpl in *.
  assert (NoDup (l1 ++ p :: c :: l2)) as Hnd by (by rewrite Hperm).
  apply NoDup_app in Hnd as (Hl1 & Hdisj & Hnd).
  apply NoDup_cons in Hnd as [Hp Hnd]. apply NoDup_cons in Hnd as [Hc Hl2].
  unfold on_cell_click. cbn [data simobjects export_order].
  assert (is_Some (keys sim !! (length l1 + 1))) as [? ->].
  { apply lookup_lt_is_Some. rewrite <- (Permutation_length Hperm).
    rewrite length_app. simpl. lia. }
  rewrite decide_True by done.
  replace (length l1 + 1) with (length l1 + 1 + 0) by lia.
  rewrite lookup_app_r by lia.
  replace (length l1 + 1 + 0 - length l1) with 1 by lia. simpl.
  rewrite lookup_app_r by lia. rewrite Nat.sub_diag. simpl.
  unfold list_remove. rewrite decide_True by set_solver.
  replace (l1 ++ p :: c :: l2) with ((l1 ++ [p]) ++ c :: l2) by (by rewrite <- app_assoc).
  rewrite remove_first_middle by set_solver.
  rewrite <- (app_assoc l1 [p] l2). simpl.
  rewrite insert_before_middle by set_solver. done.
Qed.

(** "Move Up" on the row that shows [c] swaps it with the entry before it
    and keeps the registered identifiers. *)
Lemma on_cell_click_up supported_types doc sel sim l1 p c l2 panel0 :
  synced (mkData sim (l1 ++ p :: c :: l2)) →
  settled doc (mkData sim (l1 ++ p :: c :: l2)) →
  let r := on_cell_click supported_types doc sel (length l1) 1
             (mkState (mkData sim (l1 ++ p :: c :: l2)) panel0) in
  keys (simobjects (data r.1)) = keys sim ∧
  export_order (data r.1) = l1 ++ c :: p :: l2.
Proof.
  intros Hs Hset. cbv zeta. rewrite on_cell_click_up_step by done.
  pose proof Hs as [Hk Hperm]. simpl in *.
  apply (reconcile_settled supported_types doc sel
           (mkState (mkData sim (l1 ++ c :: p :: l2)) panel0)).
  - split; simpl; [done|]. rewrite <- Hperm.
    apply Permutation_app_head, perm_swap.
  - intros k Hin. apply Hset. simpl in *. set_solver.
Qed.

(** "Move Down" on the row that shows [c] puts it after its neighbour and
    hands over to the reconcile step. *)
Lemma on_cell_click_down_step supported_types doc sel sim l0 c n l2 row panel0 :
  length l0 = S row →
  synced (mkData sim (l0 ++ c :: n :: l2)) →
  on_cell_click supported_types doc sel row 2
    (mkState (mkData sim (l0 ++ c :: n :: l2)) panel0) =
  on_tree_item_selection_change supported_types doc sel
    (mkState (mkData sim (l0 ++ n :: c :: l2)) panel0).
Proof.
  intros Hrow Hs. pose proof Hs as [Hk Hperm]. simpl in *.
  assert (NoDup (l0 ++ c :: n :: l2)) as Hnd by (by rewrite Hperm).
  apply NoDup_app in Hnd as (Hl0 & Hdisj & Hnd).
  apply NoDup_cons in Hnd as [Hc Hnd]. apply NoDup_cons in Hnd as [Hn Hl2].
  unfold on_cell_click. cbn [data simobjects export_order].
  assert (is_Some (keys sim !! (row + 1))) as [? ->].
  { apply lookup_lt_is_Some. rewrite <- (Permutation_length Hperm).
    rewrite length_app. simpl. lia. }
  rewrite decide_False by done. rewrite decide_True by done.
  rewrite lookup_app_r by lia.
  replace (row + 1 - length l0) with 0 by lia. simpl.
  rewrite lookup_app_r by lia.
  replace (row + 2 - length l0) with 1 by lia. simpl.
  unfold list_remove. rewrite decide_True by set_solver.
  rewrite remove_first_middle by set_solver.
  rewrite insert_after_middle by set_solver. done.
Qed.

(** "Move Down" on the row that shows [c] swaps it with the entry after
    it and keeps the registered identifiers. *)
Lemma on_cell_click_down supported_types doc sel sim l0 c n l2 row panel0 :
  length l0 = S row →
  synced (mkData sim (l0 ++ c :: n :: l2)) →
  settled doc (mkData sim (l0 ++ c :: n :: l2)) →
  let r := on_cell_click supported_types doc sel row 2
             (mkState (mkData sim (l0 ++ c :: n :: l2)) panel0) in
  keys (simobjects (data r.1)) = keys sim ∧
  export_order (data r.1) = l0 ++ n :: c :: l2.
Proof.
  intros Hrow Hs Hset. cbv zeta. rewrite on_cell_click_down_step by done.
  pose proof Hs as [Hk Hperm]. simpl in *.
  apply (reconcile_settled supported_types doc sel
           (mkState (mkData sim (l0 ++ n :: c :: l2)) panel0)).
  - split; simpl; [done|]. rewrite <- Hperm.
    apply Permutation_app_head, perm_swap.
  - intros k Hin. apply Hset. simpl in *. set_solver.
Qed.

(** Away from the first row, "Move Up" followed by "Move Down" on the same
    identifier gives the original order back. *)
Lemma move_up_then_down supported_types doc sel sim l1 p c l2 panel0 :
  l1 ≠ [] →
  synced (mkData sim (l1 ++ p :: c :: l2)) →
  settled doc (mkData sim (l1 ++ p :: c :: l2)) →
  let st1 := (on_cell_click supported_types doc sel (length l1) 1
                (mkState (mkData sim (l1 ++ p :: c :: l2)) panel0)).1 in
  export_order (data st1) = l1 ++ c :: p :: l2 ∧
  export_order (data (on_cell_click supported_types doc sel (length l1 - 1) 2 st1).1) =
    l1 ++ p :: c :: l2.
Proof.
  intros Hne Hs Hset. cbv zeta.
  destruct (on_cell_click_up supported_types doc sel sim l1 p c l2 panel0 Hs Hset)
    as [Hk1 He1]. cbv zeta in Hk1, He1.
  destruct (on_cell_click _ _ _ _ 1 _) as [[[sim1 eo1] p1] o1].
  cbn [fst data simobjects export_order] in *. subst eo1. split; [done|].
  assert (synced (mkData sim1 (l1 ++ c :: p :: l2))) as Hs'.
  { destruct Hs as [Hk Hperm]. split; simpl in *; rewrite Hk1; [done|].
    rewrite <- Hperm. apply Permutation_app_head, perm_swap. }
  apply (on_cell_click_down supported_types doc sel sim1 l1 c p l2 (length l1 - 1) p1);
    [| done |].
  - destruct l1; [done | simpl; lia].
  - intros k Hin. apply Hset. simpl in *. set_solver.
Qed.

(** Away from the last row, "Move Down" followed by "Move Up" on the same
    identifier gives the original order back. *)
Lemma move_down_then_up supported_types doc sel sim l0 c n l2 row panel0 :
  length l0 = S row →
  synced (mkData sim (l0 ++ c :: n :: l2)) →
  settled doc (mkData sim (l0 ++ c :: n :: l2)) →
  let st1 := (on_cell_click supported_types doc sel row 2
                (mkState (mkData sim (l0 ++ c :: n :: l2)) panel0)).1 in
  export_order (data st1) = l0 ++ n :: c :: l2 ∧
  export_order (data (on_cell_click supported_types doc sel (row + 1) 1 st1).1) =
    l0 ++ c :: n :: l2.
Proof.
  intros Hrow Hs Hset. cbv zeta.
  destruct (on_cell_click_down supported_types doc sel sim l0 c n l2 row panel0
              Hrow Hs Hset) as [Hk1 He1]. cbv zeta in Hk1, He1.
  destruct (on_cell_click _ _ _ _ 2 _) as [[[sim1 eo1] p1] o1].
  cbn [fst data simobjects export_order] in *. subst eo1. split; [done|].
  assert (synced (mkData sim1 (l0 ++ n :: c :: l2))) as Hs'.
  { destruct Hs as [Hk Hperm]. split; simpl in *; rewrite Hk1; [done|].
    rewrite <- Hperm. apply Permutation_app_head, perm_swap. }
  replace (row + 1) with (length l0) by lia.
  apply (on_cell_click_up supported_types doc sel sim1 l0 n c l2 p1); [done|].
  intros k Hin. apply Hset. simpl in *. set_solver.
Qed.

(** C3, first row: "Move Up" on table row 0 is not a no-op.  The handler
    takes [export_order[0]], the [Case_Limits] entry, as the neighbour and
    moves the first exportable identifier in front of it. *)
Lemma move_up_first_row_displaces_case_limits :
  on_cell_click sample_types doc_two_boxes [] 0 1
    (mkState (mkData [case_limits_entry; bound_entry "A" 0; bound_entry "B" 1]
                ["Case_Limits"; "A"; "B"]) initial_panel) =
  (mkState (mkData [case_limits_entry; bound_entry "A" 0; bound_entry "B" 1]
              ["A"; "Case_Limits"; "B"]) initial_panel, Returned).
Proof. vm_compute. reflexivity. Qed.

(** Last row: "Move Down" stops on [export_order[row + 2]] with an
    [IndexError] before anything is changed. *)
Lemma move_down_last_row_raises :
  on_cell_click sample_types doc_two_boxes [] 1 2
    (mkState (mkData [case_limits_entry; bound_entry "A" 0; bound_entry "B" 1]
                ["Case_Limits"; "A"; "B"]) initial_panel) =
  (mkState (mkData [case_limits_entry; bound_entry "A" 0; bound_entry "B" 1]
              ["Case_Limits"; "A"; "B"]) initial_panel, Raised IndexError).
Proof. vm_compute. reflexivity. Qed.

End ReorderProperties.


(** * Properties of the run monitor *)

Section LogParsing.
Import PyStr RunMonitor.

Lemma split_go_nonempty sep skip cur s : split_go sep skip cur s ≠ [].
Proof.
  revert skip cur. induction s as [|c s IH]; intros skip cur; [discriminate|].
  cbn [split_go]. destruct skip; [|apply IH].
  destruct (String.prefix sep (String c s)); [discriminate | apply IH].
Qed.

Lemma last_item_split sep s : ∃ x, last_item (split sep s) = Ok x.
Proof.
  unfold last_item, split.
  destruct (last (split_go sep 0 "" s)) as [x|] eqn:E; [by exists x|].
  apply last_None in E. by apply split_go_nonempty in E.
Qed.

(** Without a [TimeMax=] line the sentinel stays. *)
Lemma scan_timemax_unset run_file_data :
  Forall (λ l, contains "TimeMax=" l = false) run_file_data →
  scan_timemax run_file_data (-1)%float = ((-1)%float, Returned).
Proof.
  induction 1 as [|l ls Hl _ IH]; [done|].
  cbn [scan_timemax]. rewrite Hl, andb_false_r. apply IH.
Qed.

(** The last field of a line split at double blanks always exists. *)
Lemma read_eta_returns last_line w g :
  ∃ g', (match last_item (split "  " last_line) with
         | Raise e => (with_dialog w g, Raised e)
         | Ok last_line_time =>
             if is_time_field last_line_time then
               (with_dialog w
                  (mkRunDialog (title g) (visible g) (run_progbar_bar g)
                     (run_button_cancel g) last_line_time (run_group_label_partsout g)),
                Returned)
             else (with_dialog w g, Returned)
         end) = (with_dialog w g', Returned) ∧
        title g' = title g ∧ run_progbar_bar g' = run_progbar_bar g.
Proof.
  destruct (last_item_split "  " last_line) as [field ->].
  destruct (is_time_field field); eexists; (split; [reflexivity|done]).
Qed.

(** C5: when no [TimeMax=] line has been read and the last line is a
    [Part_] line whose time field parses to [t], no error is raised for the
    unset denominator: the division [t * 100 / -1] is carried out and the
    handler goes on with the quotient.  Where the quotient fits a C [int]
    the handler returns normally with the quotient in the window title, and
    the progress bar takes it only if it lies in the bar's range 0..100;
    where it does not fit, [setValue] raises [OverflowError] and the dialog
    is left as it was.  The denominator stays unset either way. *)
Theorem progress_divides_by_unset_timemax w run_file_data last_line t :
  timemax (data w) = (-1)%float →
  Forall (λ l, contains "TimeMax=" l = false) run_file_data →
  last run_file_data = Some last_line →
  contains "Part_" last_line = true →
  contains "Part_" (default "" (head (split "." last_line))) = true →
  (txt ← part_time_text last_line; py_float txt) = Ok t →
  let quotient := (t * 100 / -1)%float in
  let w' := on_fs_change (Some run_file_data) w in
  current_value last_line (timemax (data w)) = Ok quotient ∧
  timemax (data w'.1) = (-1)%float ∧
  match c_int_of_float quotient with
  | Ok n =>
      w'.2 = Returned ∧
      title (dialog w'.1) = TitlePercent quotient ∧
      run_progbar_bar (dialog w'.1) =
        (if decide (0 ≤ n ≤ 100)%Z then n else run_progbar_bar (dialog w))
  | Raise e => w'.2 = Raised e ∧ dialog w'.1 = dialog w
  end.
Proof.
  intros Htm Hno Hlast Hpart Hhead Ht. cbn zeta.
  assert (current_value last_line (-1) = Ok (t * 100 / -1)%float) as Hcv.
  { unfold current_value.
    destruct (part_time_text last_line) as [txt|e]; simpl in Ht; [|done].
    cbn [mbind result_bind]. rewrite Ht. reflexivity. }
  split; [by rewrite Htm|].
  set (w1 := with_data w (set_timemax (data w) (-1))).
  assert (on_fs_change (Some run_file_data) w = read_last_line last_line w1) as ->.
  { unfold on_fs_change. cbn [local].
    rewrite Htm, (scan_timemax_unset _ Hno).
    unfold last_item. by rewrite Hlast. }
  unfold read_last_line. rewrite Hpart, Hhead.
  change (timemax (data w1)) with (-1)%float. rewrite Hcv.
  change (dialog w1) with (dialog w).
  cbn [mbind result_bind].
  destruct (c_int_of_float (t * 100 / -1)) as [n|e];
    cbn [mbind result_bind mret result_ret].
  - match goal with
    | |- context [with_dialog w1 ?g0] =>
        destruct (read_eta_returns last_line w1 g0) as (g' & -> & Htitle & Hbar)
    end.
    cbn in *. rewrite Htitle, Hbar. done.
  - done.
Qed.

Lemma progress_divides_by_unset_timemax_witness :
  let w' := on_fs_change (Some (readlines part_only_log)) sample_world in
  current_value part_only_log (timemax (data sample_world)) = Ok (5 * 100 / -1)%float ∧
  timemax (data w'.1) = (-1)%float ∧
  match c_int_of_float (5 * 100 / -1)%float with
  | Ok n =>
      w'.2 = Returned ∧
      title (dialog w'.1) = TitlePercent (5 * 100 / -1)%float ∧
      run_progbar_bar (dialog w'.1) =
        (if decide (0 ≤ n ≤ 100)%Z then n else run_progbar_bar (dialog sample_world))
  | Raise e => w'.2 = Raised e ∧ dialog w'.1 = dialog sample_world
  end.
Proof.
  apply (progress_divides_by_unset_timemax sample_world (readlines part_only_log)
           part_only_log 5%float).
  - reflexivity.
  - repeat constructor.
  - reflexivity.
  - reflexivity.
  - reflexivity.
  - vm_compute. reflexivity.
Defined.

(** With no [TimeMax=] line read, the last line [Part_0005 5.00 ...] makes
    the handler return normally: the title shows [5.00 * 100 / -1 = -500]
    per cent, and the progress bar, whose range is 0..100, stays at 0. *)
Lemma unset_timemax_raises_no_error :
  timemax (data sample_world) = (-1)%float ∧
  c_int_of_float (-500)%float = Ok (-500)%Z ∧
  on_fs_change (Some (readlines part_only_log)) sample_world =
    (with_dialog sample_world
       (mkRunDialog (TitlePercent (-500)) true 0 "Cancel Simulation"
          "0.01234 - 00:01:02" 0), Returned).
Proof. repeat split; vm_compute; reflexivity. Qed.

(** A quotient in the bar's range is shown by the bar as well: a time of
    [-0.25] against the unset denominator moves the bar to 25. *)
Lemma unset_timemax_moves_the_bar :
  let w' := on_fs_change (Some ["Part_0001 -0.25  ...  1.0 - 00:00:01"]) sample_world in
  w'.2 = Returned ∧ run_progbar_bar (dialog w'.1) = 25%Z ∧
  timemax (data w'.1) = (-1)%float.
Proof. vm_compute. done. Qed.

(** C4 (amended): for the log [TimeMax=10.0] followed by the last line
    [Part_0005 5.00  ...  0.01234 - 00:01:02], where the time is a field of
    its own after the part label, the handler sets the denominator to 10 and
    the progress to exactly [(5.00 * 100) / 10.0 = 50.0]. *)
Theorem progress_of_spaced_log w :
  timemax (data w) = (-1)%float →
  let w' := on_fs_change (Some (readlines spaced_log)) w in
  w'.2 = Returned ∧
  timemax (data w'.1) = 10%float ∧
  run_progbar_bar (dialog w'.1) = 50%Z ∧
  title (dialog w'.1) = TitlePercent 50.
Proof.
  destruct w as [[pp pn dp ap tm tpo sd] cp rw rel g ws ed]. simpl.
  intros ->. vm_compute. done.
Qed.

Lemma progress_of_spaced_log_witness :
  let w' := on_fs_change (Some (readlines spaced_log)) sample_world in
  w'.2 = Returned ∧
  timemax (data w'.1) = 10%float ∧
  run_progbar_bar (dialog w'.1) = 50%Z ∧
  title (dialog w'.1) = TitlePercent 50.
Proof. apply (progress_of_spaced_log sample_world). reflexivity. Defined.

(** C4 as stated fails: on the log of the claim the text handed to [float]
    is [Part_0005.00], the conversion raises [ValueError], and the dialog
    keeps the progress it had; only the denominator has been captured. *)
Lemma claimed_log_raises_value_error :
  (last_line ← last_item (readlines claimed_log); part_time_text last_line)
    = Ok "Part_0005.00" ∧
  py_float "Part_0005.00" = Raise ValueError ∧
  on_fs_change (Some (readlines claimed_log)) sample_world =
    (with_data sample_world (set_timemax sample_case 10), Raised ValueError).
Proof. repeat split; vm_compute; reflexivity. Qed.

(** C7: when [Run.out] cannot be read the handler does not return
    normally.  The [except] clause swallows the I/O error, but the loop that
    follows reads [run_file_data], which was never bound, and the
    [UnboundLocalError] leaves the handler; the monitor state is untouched. *)
Lemma unreadable_log_raises_unbound_local w :
  on_fs_change None w = (w, Raised UnboundLocalError).
Proof. reflexivity. Qed.

End LogParsing.

Section ProcessLifecycle.
Import PyStr RunMonitor.

(** C6: when the solver process ends, the dialog shows "Error" exactly when
    the exit code is non-zero and the captured output contains
    [exception] in any letter case; in every other case, exit code 0 or
    not, it shows "Complete" with the progress bar at 100.  The
    [simulation_done] flag is raised by exit code 0 and by nothing else. *)
Theorem sim_finished_transitions w exitCode running output :
  current_process w = QProcess running output →
  let w' := (on_dsph_sim_finished exitCode w).1 in
  (title (dialog w') = TitleError ↔
     exitCode ≠ 0%Z ∧ contains "exception" (lower output) = true) ∧
  (title (dialog w') = TitleComplete ↔
     exitCode = 0%Z ∨ contains "exception" (lower output) = false) ∧
  (title (dialog w') = TitleComplete → run_progbar_bar (dialog w') = 100%Z) ∧
  (exitCode = 0%Z → simulation_done (data w') = true) ∧
  (exitCode ≠ 0%Z → simulation_done (data w') = simulation_done (data w)).
Proof.
  intros Hp. unfold on_dsph_sim_finished. rewrite Hp.
  destruct (removePath _ _) as [watched removed].
  destruct (decide (exitCode = 0%Z)) as [E|E]; cbn.
  { repeat split; intros; try done; intuition congruence. }
  destruct (contains "exception" (lower output)) eqn:Hexc.
  - destruct (item 1 _); cbn; repeat split; intros; try done; intuition congruence.
  - cbn. repeat split; intros; try done; intuition congruence.
Qed.

Lemma sim_finished_transitions_witness :
  let w' := (on_dsph_sim_finished 1
               (with_process sample_world
                  (QProcess false "*** Exception: no GPU found"))).1 in
  title (dialog w') = TitleError ∧ simulation_done (data w') = false.
Proof.
  pose proof (sim_finished_transitions
    (with_process sample_world (QProcess false "*** Exception: no GPU found"))
    1 false "*** Exception: no GPU found" eq_refl) as (H & _).
  split; [apply H; split; [discriminate | reflexivity] | reflexivity].
Defined.

Lemma remove_first_absent x l : x ∉ l → remove_first x l = l.
Proof.
  induction l as [|y l IH]; intros Hx; [done|]. simpl.
  apply not_elem_of_cons in Hx as [Hxy Hx].
  rewrite decide_False by done. by rewrite IH.
Qed.

Lemma remove_first_unique x l : NoDup l → NoDup (remove_first x l) ∧ x ∉ remove_first x l.
Proof.
  induction 1 as [|y l Hy Hl [IH1 IH2]]; simpl.
  - split; [constructor | apply not_elem_of_nil].
  - destruct (decide (x = y)) as [->|Hxy]; [done|]. split.
    + apply NoDup_cons. split; [|done].
      intros Hin. apply Hy. clear -Hin Hxy.
      induction l as [|z l IHl]; simpl in *; [done|].
      destruct (decide (x = z)); [by right|].
      apply elem_of_cons in Hin as [->|Hin]; [by left | right; by apply IHl].
    + by apply not_elem_of_cons.
Qed.

(** Reading the log touches neither the process, nor the watch list, nor
    the output directory. *)
Lemma on_fs_change_frame run_file w :
  let w' := (on_fs_change run_file w).1 in
  current_process w' = current_process w ∧ run_watcher w' = run_watcher w ∧
  releases w' = releases w ∧ out_dir (data w') = out_dir (data w).
Proof.
  unfold on_fs_change, read_last_line, local.
  repeat case_match; simpl; done.
Qed.

Lemma handle_watch_state dir output r released ev w :
  watch_state dir output r released w →
  watch_state dir output r (released || is_finished ev) (handle ev w).1 ∧
  (ev = CancelClicked → (handle ev w).2 = Returned).
Proof.
  intros ([running Hp] & Hdir & Hnd & Hrel). destruct ev as [|exitCode|run_file]; simpl.
  - rewrite orb_false_r. unfold on_cancel. rewrite Hp. simpl.
    split; [|done]. split; [by eexists|]. done.
  - rewrite orb_true_r. split; [|done].
    unfold on_dsph_sim_finished, removePath. rewrite Hp, Hdir.
    destruct (remove_first_unique dir _ Hnd) as [Hnd' Hout].
    assert ((if bool_decide (dir ∈ run_watcher w) then S (releases w) else releases w) = S r)
      as Hcount.
    { destruct released.
      - destruct Hrel as [Hnot ->]. by rewrite bool_decide_eq_false_2.
      - destruct Hrel as [Hin ->]. by rewrite bool_decide_eq_true_2. }
    repeat case_match; simpl; (split; [by eexists|]); rewrite ?Hcount; done.
  - rewrite orb_false_r. split; [|done].
    destruct (on_fs_change_frame run_file w) as (E1 & E2 & E3 & E4).
    unfold watch_state. rewrite E1, E2, E3, E4. split; [by eexists|]. done.
Qed.

Lemma run_watch_state dir output r evs : ∀ released w,
  watch_state dir output r released w →
  watch_state dir output r (released || existsb is_finished evs) (run evs w).1 ∧
  (∀ i, evs !! i = Some CancelClicked → (run evs w).2 !! i = Some Returned).
Proof.
  induction evs as [|ev evs IH]; intros released w Hw; simpl.
  - rewrite orb_false_r. split; [done|]. intros i Hi. by rewrite lookup_nil in Hi.
  - destruct (handle_watch_state _ _ _ _ ev w Hw) as [Hw1 Hret].
    destruct (handle ev w) as [w1 o] eqn:Eh. simpl in *.
    destruct (IH _ _ Hw1) as [Hw2 Hrets].
    destruct (run evs w1) as [w2 os] eqn:Er. simpl in *.
    rewrite orb_assoc. split; [done|].
    intros [|i] Hi; simpl in *; [|by apply Hrets].
    injection Hi as ->. by rewrite Hret.
Qed.

(** [on_ex_simulate] leaves a running simulation when the solver starts. *)
Lemma on_ex_simulate_running w :
  NoDup (run_watcher w) → is_running (on_ex_simulate true w).
Proof.
  intros Hnd. unfold is_running, on_ex_simulate, addPath. simpl.
  split; [by eexists|].
  destruct (decide (_ ∈ run_watcher w)) as [Hin|Hout]; [done|]. split.
  - apply elem_of_app. right. by left.
  - apply NoDup_app. split; [done|]. split; [|apply NoDup_singleton].
    intros x Hx ->%list_elem_of_singleton. done.
Qed.

(** C8: cancelling a running simulation kills the process, and the watch
    is taken off by the slot of the process-finished signal with which Qt
    answers the kill.  However many more times the cancel slot runs, and in
    whatever order the finished signal, directory changes and further clicks
    are delivered, the run ends with the output directory off the watch
    list, exactly one release counted, and every cancel slot returned
    without an error. *)
Theorem cancel_releases_watch_once w evs :
  is_running w →
  (∃ exitCode, ProcessFinished exitCode ∈ evs) →
  let w' := (run (CancelClicked :: evs) w).1 in
  (∃ output, current_process (on_cancel w).1 = QProcess false output) ∧
  (out_dir (data w') ∉ run_watcher w') ∧
  releases w' = S (releases w) ∧
  (∀ i, (CancelClicked :: evs) !! i = Some CancelClicked →
        (run (CancelClicked :: evs) w).2 !! i = Some Returned).
Proof.
  intros ([output Hp] & Hin & Hnd) [exitCode Hfin].
  assert (watch_state (out_dir (data w)) output (releases w) false w) as Hw.
  { split; [by eexists|]. done. }
  destruct (run_watch_state _ _ _ (CancelClicked :: evs) _ _ Hw) as [Hw' Hrets].
  assert (existsb is_finished (CancelClicked :: evs) = true) as Hex.
  { apply existsb_exists. exists (ProcessFinished exitCode).
    split; [|done]. apply list_elem_of_In. by right. }
  rewrite Hex in Hw'. simpl in Hw'.
  destruct Hw' as (_ & Hdir & _ & Hout & Hrel).
  simpl. split.
  { unfold on_cancel. rewrite Hp. simpl. by eexists. }
  rewrite Hdir. done.
Qed.

Lemma cancel_releases_watch_once_witness :
  let evs := [CancelClicked; ProcessFinished 9; CancelClicked] in
  let w' := (run (CancelClicked :: evs) sample_world).1 in
  (∃ output, current_process (on_cancel sample_world).1 = QProcess false output) ∧
  (out_dir (data w') ∉ run_watcher w') ∧
  releases w' = S (releases sample_world) ∧
  (∀ i, (CancelClicked :: evs) !! i = Some CancelClicked →
        (run (CancelClicked :: evs) sample_world).2 !! i = Some Returned).
Proof.
  apply (cancel_releases_watch_once sample_world
           [CancelClicked; ProcessFinished 9; CancelClicked]).
  - split; [by eexists|]. split; [|apply (bool_decide_unpack _); vm_compute; exact I].
    apply (bool_decide_unpack _); vm_compute; exact I.
  - exists 9%Z. apply (bool_decide_unpack _); vm_compute; exact I.
Defined.

End ProcessLifecycle.



(** * Properties of the export driver *)

Section ExportArguments.
Import PyStr ExportDriver.

(** With export options of two characters or more, the arguments added
    after the two directory arguments are the pieces of
    [additional_parameters], the simulation's parameter string. *)
Lemma export_extra_arguments c :
  (2 ≤ String.length (export_options c))%nat →
  final_params_exp c = static_params_exp c ++ split " " (additional_parameters c).
Proof.
  intros Hlen. unfold final_params_exp, additional_params_exp.
  by rewrite decide_False by lia.
Qed.

(** C9: with export options [-onlytype:-all,+fluid] and simulation
    parameters [-stable -sv:binx] stored, the exporter is started with the
    simulation parameters after the directory arguments; the export options
    are not passed. *)
Lemma export_passes_simulation_parameters :
  on_export (mkCase "/home/user/cases" "dambreak" "/opt/PartVTK4"
               "-onlytype:-all,+fluid" "-stable -sv:binx") =
  ("/opt/PartVTK4",
   ["-dirin /home/user/cases/dambreak_Out/";
    "-savevtk /home/user/cases/dambreak_Out/PartAll";
    "-stable"; "-sv:binx"]).
Proof. vm_compute. reflexivity. Qed.

End ExportArguments.

(** * Properties of the XML importer *)

Section ImporterFlags.
Import PyStr XmlImporter.
Variable unicode_lower : string → string.
Variable encode_decimal : string → result string.

#[local] Abbreviation is_true := (XmlImporter.is_true unicode_lower).
#[local] Abbreviation case_constants :=
  (XmlImporter.case_constants unicode_lower encode_decimal).
#[local] Abbreviation execution_parameters :=
  (XmlImporter.execution_parameters unicode_lower encode_decimal).
#[local] Abbreviation written_keys := (XmlImporter.written_keys unicode_lower).
#[local] Abbreviation filter_data :=
  (XmlImporter.filter_data unicode_lower encode_decimal).

Lemma Ok_inj {A} (a b : A) : Ok a = Ok b → a = b.
Proof. by intros [= ->]. Qed.

Lemma returned_value {A} (r : result A) (d : A) :
  match r with Ok _ => true | Raise _ => false end = true →
  r = Ok (match r with Ok a => a | Raise _ => d end).
Proof. by destruct r. Qed.

Lemma is_true_ok j b :
  is_true j = Ok b → ∃ s, j = JStr s ∧ b = bool_decide (unicode_lower s = "true").
Proof.
  unfold XmlImporter.is_true, as_lower. destruct j; cbn; try discriminate.
  intros [= <-]. eauto.
Qed.

(** After the constants block, [massfluid_auto] holds what the [auto]
    attribute of [massbound] says. *)
Lemma case_constants_massfluid_auto raw fil0 fil :
  case_constants raw fil0 = Ok fil →
  ∃ auto, constant raw "massbound" "@auto" = Ok (JStr auto) ∧
          fil !! "massfluid_auto" =
            Some (VBool (bool_decide (unicode_lower auto = "true"))).
Proof.
  unfold XmlImporter.case_constants. intros H.
  repeat match type of H with
  | mbind _ (mbind ?f ?m) = Ok _ =>
      let E := fresh "E" in
      destruct (mbind f m) eqn:E; cbn [mbind result_bind] in H; [|discriminate H]
  end.
  cbn [mret result_ret] in H. apply Ok_inj in H as <-.
  match goal with
  | E : constant raw "massbound" "@auto" ≫= _ = Ok ?b |- _ =>
      destruct (constant raw "massbound" "@auto") as [j|] eqn:Ej;
        cbn [mbind result_bind] in E; [|discriminate E];
        apply is_true_ok in E as (s & -> & ->)
  end.
  exists s. split; [done|]. by rewrite lookup_insert_eq.
Qed.

Lemma execution_parameters_other_keys k ps : ∀ fil fil',
  execution_parameters ps fil = Ok fil' →
  (∀ p, p ∈ ps → k ∉ written_keys p) →
  fil' !! k = fil !! k.
Proof.
  induction ps as [|p ps IH]; intros fil fil' H Hk.
  - by injection H as <-.
  - cbn [XmlImporter.execution_parameters] in H.
    assert (k ∉ written_keys p) as Hp by (apply Hk; left).
    assert (∀ q, q ∈ ps → k ∉ written_keys q) as Hps by (intros q ?; apply Hk; by right).
    unfold XmlImporter.written_keys in Hp.
    destruct (getitem p "@key") as [key|] eqn:Ekey;
      cbn [mbind result_bind] in H; [|discriminate H].
    destruct (has_hash key) as [hash|] eqn:Ehash;
      cbn [mbind result_bind] in H; [|discriminate H].
    destruct (getitem p "@value" ≫= as_float encode_decimal) as [v|] eqn:Ev;
      destruct hash; cbn [mbind result_bind] in H; try discriminate H.
    + destruct key as [|s|l|d]; cbn [plain_key mbind result_bind] in H;
        try discriminate H.
      cbn in Ehash. injection Ehash as Ehash. rewrite Ehash in Hp.
      rewrite (IH _ _ H Hps).
      rewrite !lookup_insert_ne; [done | |]; intros <-; set_solver.
    + destruct key as [|s|l|d]; cbn [as_lower mbind result_bind] in H;
        try discriminate H.
      cbn in Ehash. injection Ehash as Ehash. rewrite Ehash in Hp.
      rewrite (IH _ _ H Hps).
      rewrite lookup_insert_ne; [done|]. intros <-. set_solver.
Qed.

(** C10 (amended): when [filter_data] returns and no execution parameter
    is stored under the key [massfluid_auto], the returned [massfluid_auto]
    is true exactly when the [auto] attribute of [massbound], lower-cased as
    [unicode.lower] does it, is [true]; the [auto] attribute of [massfluid]
    is not consulted. *)
Theorem massfluid_auto_follows_massbound raw fil ps :
  filter_data raw = Ok fil →
  parameter_items raw = Ok ps →
  (∀ p, p ∈ ps → "massfluid_auto" ∉ written_keys p) →
  ∃ auto, constant raw "massbound" "@auto" = Ok (JStr auto) ∧
          fil !! "massfluid_auto" =
            Some (VBool (bool_decide (unicode_lower auto = "true"))).
Proof.
  unfold XmlImporter.filter_data. intros H Hps Hkeys. rewrite Hps in H.
  destruct (case_constants raw ∅) as [fil1|] eqn:E1;
    cbn [mbind result_bind] in H; [|discriminate H].
  destruct (mbind (as_float encode_decimal) _) as [dp|] eqn:Edp;
    cbn [mbind result_bind] in H; [|discriminate H].
  destruct (execution_parameters ps _) as [fil2|] eqn:E2;
    cbn [mbind result_bind] in H; [|discriminate H].
  destruct (mbind _ (getitem raw "case")) as [name|] eqn:En;
    cbn [mbind result_bind] in H; [|discriminate H].
  destruct (mk_used encode_decimal raw "setmkbound") as [bounds|] eqn:Eb;
    cbn [mbind result_bind] in H; [|discriminate H].
  destruct (mk_used encode_decimal raw "setmkfluid") as [fluids|] eqn:Ef;
    cbn [mbind result_bind mret result_ret] in H; [|discriminate H].
  apply Ok_inj in H as <-.
  destruct (case_constants_massfluid_auto _ _ _ E1) as (auto & Hauto & Hfil1).
  exists auto. split; [done|].
  rewrite !lookup_insert_ne by done.
  rewrite (execution_parameters_other_keys _ _ _ _ E2 Hkeys).
  by rewrite lookup_insert_ne.
Qed.

End ImporterFlags.

Section ImporterSamples.
Import PyStr XmlImporter.

Lemma massfluid_auto_follows_massbound_witness :
  ∃ auto,
    filter_ascii two_parameters_raw = Ok two_parameters_fil ∧
    constant two_parameters_raw "massbound" "@auto" = Ok (JStr auto) ∧
    two_parameters_fil !! "massfluid_auto" =
      Some (VBool (bool_decide (lower auto = "true"))).
Proof.
  assert (filter_ascii two_parameters_raw = Ok two_parameters_fil) as E
    by (apply returned_value; vm_compute; reflexivity).
  destruct (massfluid_auto_follows_massbound lower Ok two_parameters_raw
              two_parameters_fil
              [parameter "TimeMax" "1.5"; parameter "#DtIni" "0.0001"] E eq_refl)
    as (auto & Hauto & Hfil).
  - apply Forall_forall. repeat constructor;
      apply (bool_decide_unpack _); vm_compute; exact I.
  - exists auto. split; [exact E|]. split; [exact Hauto | exact Hfil].
Defined.

(** C10 as stated fails: of the two execution parameters [#MassFluid] and
    [TimeMax], the first is stored under [massfluid] and [massfluid_auto],
    so the returned flag is true although the [auto] attribute of
    [massbound] is [false].  The text of this input is ASCII, on which
    [unicode.lower] is [lower]. *)
Lemma massfluid_auto_overwritten_by_parameter :
  parameter_node (sample_raw "false" "false"
                    [parameter "#MassFluid" "0.001"; parameter "TimeMax" "1.5"]) =
    Ok (JList [parameter "#MassFluid" "0.001"; parameter "TimeMax" "1.5"]) ∧
  constant (sample_raw "false" "false"
              [parameter "#MassFluid" "0.001"; parameter "TimeMax" "1.5"])
    "massbound" "@auto" = Ok (JStr "false") ∧
  (fil ← filter_ascii (sample_raw "false" "false"
                         [parameter "#MassFluid" "0.001"; parameter "TimeMax" "1.5"]);
   mret (fil !! "massfluid_auto")) = Ok (Some (VBool true)).
Proof. repeat split; vm_compute; reflexivity. Qed.

End ImporterSamples.

